(** * MoodMate: the sentiment-scoring engine of [sentiment_analyzer.py]

    A shallow embedding of class [SentimentAnalyzer] and the properties its
    specification states about it.

    Conventions of the embedding
    - A Python [str] is a list of Unicode code points ([list N]).
    - A Python [float] is an exact rational ([Q]); the rounding error of
      binary64 arithmetic is not modelled.  Literals are written as in the
      source ([0.35], [-0.15], ...).  Bounds that a rounding error of the
      last bit could cross are stated with a margin.
    - A Python [dict] with string keys is a [gmap (list N) _]; a dict that is
      only iterated is the list of its items in insertion order.
    - The two third-party analyzers (NLTK's VADER and TextBlob) and the
      character database of the interpreter are not part of the repository;
      they are parameters of the development. *)

From Stdlib Require Import QArith Qabs Qround Qminmax Ascii String Lia Lqa.
From stdpp Require Import gmap list strings pretty sorting.

Local Open Scope Q_scope.

(** ** Built-ins of the Python runtime used by the analyzer *)

Module Py.

(** A string literal of the source, as code points. *)
Definition lit (s : string) : list N :=
  (λ a, N_of_ascii a) <$> list_ascii_of_string s.

(** [c.isspace()]: the 29 white-space code points of CPython, which are
    also what [str.strip()], [str.split()] and the pattern [\s] use. *)
Definition isspace (c : N) : bool :=
  ((9 <=? c) && (c <=? 13) || (28 <=? c) && (c <=? 32)
   || (c =? 133) || (c =? 160) || (c =? 5760)
   || (8192 <=? c) && (c <=? 8202)
   || (c =? 8232) || (c =? 8233) || (c =? 8239) || (c =? 8287)
   || (c =? 12288))%N.

Fixpoint lstrip (s : list N) : list N :=
  match s with
  | c :: s' => if isspace c then lstrip s' else s
  | [] => []
  end.

Definition rstrip (s : list N) : list N := reverse (lstrip (reverse s)).

(** [s.strip()] *)
Definition strip (s : list N) : list N := rstrip (lstrip s).

(** [s.split()]: the maximal runs of non-white-space characters.  [cur] is
    the word being read, in reverse. *)
Fixpoint split_from (cur : list N) (s : list N) : list (list N) :=
  match s with
  | [] => match cur with [] => [] | _ => [reverse cur] end
  | c :: s' =>
      if isspace c
      then match cur with
           | [] => split_from [] s'
           | _ => reverse cur :: split_from [] s'
           end
      else split_from (c :: cur) s'
  end.

Definition split (s : list N) : list (list N) := split_from [] s.

(** [s.split(sep)] for a one-character separator: empty pieces are kept,
    and the empty string gives one empty piece. *)
Fixpoint split_on_from (sep : N) (cur : list N) (s : list N) : list (list N) :=
  match s with
  | [] => [reverse cur]
  | c :: s' =>
      if (c =? sep)%N then reverse cur :: split_on_from sep [] s'
      else split_on_from sep (c :: cur) s'
  end.

Definition split_on (sep : N) (s : list N) : list (list N) :=
  split_on_from sep [] s.

(** [s.count(c)] for a one-character [c]. *)
Definition count (c : N) (s : list N) : nat :=
  length (List.filter (λ d, (d =? c)%N) s).

(** An [int] used where a [float] is expected. *)
Definition of_nat (n : nat) : Q := inject_Z (Z.of_nat n).

(** Comparisons of floats, as booleans. *)
Definition lt (x y : Q) : bool := negb (Qle_bool y x).
Definition le (x y : Q) : bool := Qle_bool x y.

(** [min(x, y)] and [max(x, y)]: the first argument wins a tie. *)
Definition min (x y : Q) : Q := if lt y x then y else x.
Definition max (x y : Q) : Q := if lt x y then y else x.

(** [sum(xs)] of floats (from the integer [0], left to right) *)
Definition sum (xs : list Q) : Q := fold_left Qplus xs 0.

(** [round(x, 3)]: to the nearest multiple of 1/1000, a tie going to the
    even one. *)
Definition round_half_even (x : Q) : Z :=
  let f := Qfloor x in
  let r := x - inject_Z f in
  if lt r 0.5 then f
  else if lt 0.5 r then (f + 1)%Z
  else if Z.even f then f else (f + 1)%Z.

Definition round3 (x : Q) : Q := inject_Z (round_half_even (x * 1000)) / 1000.

End Py.

(** ** The character database of the interpreter

    [str.lower], [str.isupper], and the character classes behind the
    patterns [\b] and [re.IGNORECASE] are tables of the Unicode character
    database compiled into the interpreter.  The development is parametric in
    them; the two laws fix what they are on ASCII text. *)

Definition is_ascii (c : N) : Prop := (c < 128)%N.

Definition ascii_isupper (c : N) : bool := ((65 <=? c) && (c <=? 90))%N.

Definition ascii_lower (c : N) : N := if ascii_isupper c then (c + 32)%N else c.

Class Unicode := {
  (** [c.isupper()] for a single character *)
  isupper : N → bool;
  (** [s.lower()] *)
  lower : list N → list N;
  (** [c.isalnum()], which with the underscore makes the class [\w] *)
  isalnum : N → bool;
  (** [ignorecase p c]: the literal [p] of a pattern compiled with
      [re.IGNORECASE] matches the character [c] *)
  ignorecase : N → N → bool;
  isupper_ascii : ∀ c, is_ascii c → isupper c = ascii_isupper c;
  lower_ascii : ∀ s, Forall is_ascii s → lower s = ascii_lower <$> s;
}.

(** ** Data model *)

(** The dict returned by VADER's [polarity_scores]. *)
Record VaderScores := {
  compound : Q;
  pos : Q;
  neu : Q;
  neg : Q;
}.

(** The three values of ['sentiment_label']. *)
Inductive SentimentLabel := positive | neutral | negative.

(** The dict returned by [analyze]. *)
Record AnalysisResult := {
  compound_score : Q;
  sentiment_label : SentimentLabel;
  confidence : Q;
  vader_scores : VaderScores;
  textblob_polarity : Q;
  textblob_subjectivity : Q;
  psychology_score : Q;
  emotional_intensity : Q;
  word_count : nat;
}.

(** The attributes of a [SentimentAnalyzer] instance.  [sia] is the method
    [polarity_scores] of the VADER analyzer the instance holds. *)
Record SentimentAnalyzer := {
  sia : list N → VaderScores;
  positive_psychology_words : gmap (list N) Q;
  negative_psychology_words : gmap (list N) Q;
  intensity_modifiers : gmap (list N) Q;
}.

(** A dict literal with string keys. *)
Definition dict (items : list (string * Q)) : gmap (list N) Q :=
  list_to_map (prod_map Py.lit id <$> items).

Definition positive_items : list (string * Q) :=
  [ ("grateful", 2.0); ("thankful", 1.8); ("blessed", 1.5); ("accomplished", 2.2);
    ("proud", 2.0); ("confident", 1.8); ("optimistic", 1.9); ("hopeful", 2.1);
    ("peaceful", 1.7); ("content", 1.5); ("fulfilled", 2.3); ("motivated", 1.9);
    ("inspired", 2.0); ("energetic", 1.6); ("relaxed", 1.4); ("calm", 1.3);
    ("balanced", 1.5); ("centered", 1.4); ("empowered", 2.1); ("resilient", 2.0);
    ("progress", 1.7); ("growth", 1.8); ("breakthrough", 2.2); ("healing", 1.9) ]%string.

Definition negative_items : list (string * Q) :=
  [ ("anxious", -2.1); ("overwhelmed", -2.3); ("depressed", -2.5); ("hopeless", -2.8);
    ("frustrated", -1.9); ("lonely", -2.0); ("stressed", -2.2); ("worried", -1.8);
    ("disappointed", -1.7); ("exhausted", -2.0); ("burnout", -2.4); ("numb", -1.9);
    ("empty", -2.1); ("worthless", -2.7); ("helpless", -2.4); ("trapped", -2.2);
    ("confused", -1.5); ("lost", -1.8); ("broken", -2.3); ("struggling", -1.9);
    ("panic", -2.6); ("fear", -1.8); ("terror", -2.5); ("dread", -2.2) ]%string.

Definition modifier_items : list (string * Q) :=
  [ ("very", 1.3); ("extremely", 1.5); ("incredibly", 1.4); ("really", 1.2);
    ("quite", 1.1); ("pretty", 1.1); ("somewhat", 0.8); ("slightly", 0.7);
    ("a bit", 0.6); ("a little", 0.6); ("totally", 1.4); ("completely", 1.5) ]%string.

(** [__init__], given the VADER analyzer it creates. *)
Definition init (polarity_scores : list N → VaderScores) : SentimentAnalyzer := {|
  sia := polarity_scores;
  positive_psychology_words := dict positive_items;
  negative_psychology_words := dict negative_items;
  intensity_modifiers := dict modifier_items;
|}.

(** The local dict [contractions] of [preprocess_text], in insertion order. *)
Definition contractions : list (string * string) :=
  [ ("i'm", "i am"); ("i've", "i have"); ("i'll", "i will");
    ("i'd", "i would"); ("you're", "you are"); ("you've", "you have");
    ("you'll", "you will"); ("you'd", "you would"); ("he's", "he is");
    ("she's", "she is"); ("it's", "it is"); ("we're", "we are");
    ("they're", "they are"); ("can't", "cannot"); ("won't", "will not");
    ("don't", "do not"); ("didn't", "did not"); ("couldn't", "could not");
    ("wouldn't", "would not"); ("shouldn't", "should not") ]%string.

(** The local list [intensity_indicators] of [analyze_emotional_intensity]. *)
Definition intensity_indicators : list (list N) :=
  Py.lit <$>
  [ "very"; "extremely"; "incredibly"; "totally"; "completely";
    "absolutely"; "utterly"; "deeply"; "intensely"; "overwhelming";
    "devastating"; "amazing"; "fantastic"; "terrible"; "awful" ]%string.

(** ** Recording the calls to the scoring methods

    [analyze] is run in a writer monad that logs every call to one of the
    scoring methods, in program order. *)

Inductive ScorerCall :=
  | VaderCall (text : list N)
  | TextBlobCall (text : list N)
  | PsychologyCall (text : list N)
  | IntensityCall (text : list N).

Definition Traced (A : Type) : Type := A * list ScorerCall.

#[global] Instance traced_ret : MRet Traced := λ A x, (x, []).
#[global] Instance traced_bind : MBind Traced :=
  λ A B f m, let r := f m.1 in (r.1, m.2 ++ r.2).

Definition invoke {A} (c : ScorerCall) (result : A) : Traced A := (result, [c]).

(** ** The methods of [SentimentAnalyzer] *)

Section Analyzer.
Context `{U : Unicode}.

(** TextBlob: [TextBlob(text).sentiment], as (polarity, subjectivity). *)
Variable textblob_sentiment : list N → Q * Q.

(** *** [preprocess_text] *)

(** [re.sub(r'\s+', ' ', s)]: every maximal run of white space becomes one
    space.  [in_run] tells that the previous character was white space. *)
Fixpoint collapse_whitespace (in_run : bool) (s : list N) : list N :=
  match s with
  | [] => []
  | c :: s' =>
      if Py.isspace c
      then if in_run then collapse_whitespace true s'
           else 32%N :: collapse_whitespace true s'
      else c :: collapse_whitespace false s'
  end.

(** The class [\w]. *)
Definition is_word (c : option N) : bool :=
  match c with
  | Some c => isalnum c || (c =? 95)%N
  | None => false
  end.

(** [\b] between two neighbours; [None] is an end of the string. *)
Definition word_boundary (before after : option N) : bool :=
  xorb (is_word before) (is_word after).

(** The literal [pat] matches a prefix of [s], ignoring case. *)
Fixpoint match_literal (pat s : list N) : bool :=
  match pat, s with
  | [], _ => true
  | p :: pat', c :: s' => ignorecase p c && match_literal pat' s'
  | _ :: _, [] => false
  end.

(** [r'\b' + pat + r'\b'] matches at the start of [s], where [prev] is the
    character before it. *)
Definition match_here (pat : list N) (prev : option N) (s : list N) : bool :=
  word_boundary prev (s !! 0%nat)
  && match_literal pat s
  && word_boundary (s !! (length pat - 1)%nat) (s !! length pat).

(** [re.sub(r'\b' + pat + r'\b', repl, s, flags=re.IGNORECASE)] for a
    non-empty literal [pat]: the matches are found from left to right and do
    not overlap.  [skip] counts the characters of the current match that
    are still to be passed over. *)
Fixpoint sub_word_from (pat repl : list N) (prev : option N) (skip : nat)
    (s : list N) : list N :=
  match s with
  | [] => []
  | c :: s' =>
      match skip with
      | S k => sub_word_from pat repl (Some c) k s'
      | O =>
          if match_here pat prev s
          then repl ++ sub_word_from pat repl (Some c) (length pat - 1) s'
          else c :: sub_word_from pat repl (Some c) 0 s'
      end
  end.

Definition sub_word (pat repl s : list N) : list N :=
  sub_word_from pat repl None 0 s.

Definition expand_contractions (text : list N) : list N :=
  fold_left
    (λ text '(contraction, expansion),
       sub_word (Py.lit contraction) (Py.lit expansion) text)
    contractions text.

Definition preprocess_text (text : list N) : list N :=
  let text := collapse_whitespace false (Py.strip text) in
  let text := expand_contractions text in
  lower text.

(** *** [psychology_weighted_analysis] *)

(** One turn of the loop body: the value added to [total_score] for the
    word at index [i]. *)
Definition word_score_at (self : SentimentAnalyzer) (words : list (list N))
    (i : nat) (word : list N) : Q :=
  let word_score :=
    match positive_psychology_words self !! word with
    | Some w => w
    | None =>
        match negative_psychology_words self !! word with
        | Some w => w
        | None => 0.0
        end
    end in
  if (0 <? i)%nat then
    match words !! (i - 1)%nat with
    | Some previous =>
        match intensity_modifiers self !! previous with
        | Some modifier => word_score * modifier
        | None => word_score
        end
    | None => word_score
    end
  else word_score.

(** [total_score] when the loop over [enumerate(words)] ends. *)
Definition total_score (self : SentimentAnalyzer) (words : list (list N)) : Q :=
  fold_left (λ total '(i, word), total + word_score_at self words i word)
    (imap pair words) 0.0.

Definition psychology_weighted_analysis (self : SentimentAnalyzer)
    (text : list N) : Q :=
  let words := Py.split text in
  let word_count := length words in
  if (word_count =? 0)%nat then 0.0
  else total_score self words / Py.of_nat word_count.

(** *** [analyze_emotional_intensity] *)

Definition intensity_count (words : list (list N)) : nat :=
  length (filter (λ word, word ∈ intensity_indicators) words).

Definition caps_ratio (text : list N) : Q :=
  Py.of_nat (length (List.filter isupper text))
  / Py.of_nat (Nat.max (length text) 1).

Definition analyze_emotional_intensity (text : list N) : Q :=
  let words := Py.split text in
  let exclamation_count := Py.count 33%N text in
  let intensity_score :=
    (Py.of_nat (intensity_count words) / Py.of_nat (Nat.max (length words) 1)) * 0.5
    + (Py.of_nat exclamation_count
       / Py.of_nat (Nat.max (length (Py.split_on 46%N text)) 1)) * 0.3
    + caps_ratio text * 0.2 in
  Py.min intensity_score 1.0.

(** *** [calculate_combined_score] *)

Definition calculate_combined_score
    (vader_compound textblob_polarity psych_score intensity_score : Q) : Q :=
  let combined :=
    vader_compound * 0.35
    + textblob_polarity * 0.25
    + psych_score * 0.30
    + intensity_score * 0.10 in
  Py.max (-1.0) (Py.min 1.0 combined).

(** *** [classify_sentiment] *)

Definition classify_sentiment (combined_score : Q) : SentimentLabel :=
  if Py.le 0.15 combined_score then positive
  else if Py.le combined_score (-0.15) then negative
  else neutral.

(** *** [calculate_confidence] *)

Definition calculate_confidence (vader_scores : VaderScores)
    (textblob_polarity psych_score : Q) : Q :=
  let scores := [compound vader_scores; textblob_polarity; psych_score] in
  let non_zero_scores := List.filter (λ s, Py.lt 0.05 (Qabs s)) scores in
  if (length non_zero_scores <? 2)%nat then 0.5
  else
    let positive_count := length (List.filter (λ s, Py.lt 0.1 s) non_zero_scores) in
    let negative_count := length (List.filter (λ s, Py.lt s (-0.1)) non_zero_scores) in
    let neutral_count :=
      (Z.of_nat (length non_zero_scores) - Z.of_nat positive_count
       - Z.of_nat negative_count)%Z in
    let max_agreement :=
      Z.max (Z.max (Z.of_nat positive_count) (Z.of_nat negative_count))
        neutral_count in
    let agreement_ratio :=
      inject_Z max_agreement / Py.of_nat (length non_zero_scores) in
    let avg_magnitude :=
      Py.sum (Qabs <$> non_zero_scores) / Py.of_nat (length non_zero_scores) in
    let confidence := agreement_ratio * 0.7 + avg_magnitude * 0.3 in
    Py.min confidence 1.0.

(** *** [_empty_result] *)

Definition _empty_result : AnalysisResult := {|
  compound_score := 0.0;
  sentiment_label := neutral;
  confidence := 0.0;
  vader_scores := {| compound := 0.0; pos := 0.0; neu := 1.0; neg := 0.0 |};
  textblob_polarity := 0.0;
  textblob_subjectivity := 0.0;
  psychology_score := 0.0;
  emotional_intensity := 0.0;
  word_count := 0;
|}.

(** *** [analyze] *)

Definition analyze_traced (self : SentimentAnalyzer) (text : list N)
    : Traced AnalysisResult :=
  if bool_decide (text = []) || bool_decide (Py.strip text = [])
  then mret _empty_result
  else
    let cleaned_text := preprocess_text text in
    vader_scores ← invoke (VaderCall cleaned_text) (sia self cleaned_text);
    blob_sentiment ←
      invoke (TextBlobCall cleaned_text) (textblob_sentiment cleaned_text);
    let textblob_polarity := blob_sentiment.1 in
    let textblob_subjectivity := blob_sentiment.2 in
    psych_score ←
      invoke (PsychologyCall cleaned_text)
        (psychology_weighted_analysis self cleaned_text);
    intensity_score ←
      invoke (IntensityCall cleaned_text)
        (analyze_emotional_intensity cleaned_text);
    let combined_score :=
      calculate_combined_score (compound vader_scores) textblob_polarity
        psych_score intensity_score in
    let sentiment_label := classify_sentiment combined_score in
    let confidence :=
      calculate_confidence vader_scores textblob_polarity psych_score in
    mret {|
      compound_score := Py.round3 combined_score;
      sentiment_label := sentiment_label;
      confidence := Py.round3 confidence;
      vader_scores := vader_scores;
      textblob_polarity := Py.round3 textblob_polarity;
      textblob_subjectivity := Py.round3 textblob_subjectivity;
      psychology_score := Py.round3 psych_score;
      emotional_intensity := Py.round3 intensity_score;
      word_count := length (Py.split cleaned_text);
    |}.

Definition analyze (self : SentimentAnalyzer) (text : list N) : AnalysisResult :=
  (analyze_traced self text).1.

End Analyzer.

(** ** An excerpt of the character database

    The rows of CPython's tables for Basic Latin and for six further
    characters: U+2102 (DOUBLE-STRUCK CAPITAL C, an upper-case letter without
    a lower-case form), the four characters that match an ASCII letter when
    case is ignored (U+0130, U+0131, U+017F, U+212A) and U+0307, which the
    lower-casing of U+0130 produces.  Every other character is treated as a
    caseless symbol, so the instance is meant for texts over these
    characters only. *)

Module Excerpt.

Definition isupper (c : N) : bool :=
  ascii_isupper c || (c =? 0x2102)%N || (c =? 0x130)%N || (c =? 0x212A)%N.

Definition lower_char (c : N) : list N :=
  if (c =? 0x130)%N then [0x69; 0x307]%N
  else if (c =? 0x212A)%N then [0x6B]%N
  else [ascii_lower c].

Definition lower (s : list N) : list N := s ≫= lower_char.

Definition isalnum (c : N) : bool :=
  ((48 <=? c) && (c <=? 57) || (65 <=? c) && (c <=? 90)
   || (97 <=? c) && (c <=? 122)
   || (c =? 0x2102) || (c =? 0x130) || (c =? 0x131) || (c =? 0x17F)
   || (c =? 0x212A))%N.

(** The characters that a pattern letter matches besides its two cases. *)
Definition other_cases (p : N) : list N :=
  if (ascii_lower p =? 0x69)%N then [0x130; 0x131]%N
  else if (ascii_lower p =? 0x73)%N then [0x17F]%N
  else if (ascii_lower p =? 0x6B)%N then [0x212A]%N
  else [].

Definition ignorecase (p c : N) : bool :=
  (ascii_lower p =? ascii_lower c)%N || bool_decide (c ∈ other_cases p).

Definition unicode : Unicode.
Proof.
  refine (Build_Unicode isupper lower isalnum ignorecase _ _).
  - unfold is_ascii, isupper. intros c Hc.
    replace (c =? 0x2102)%N with false by (symmetry; apply N.eqb_neq; lia).
    replace (c =? 0x130)%N with false by (symmetry; apply N.eqb_neq; lia).
    replace (c =? 0x212A)%N with false by (symmetry; apply N.eqb_neq; lia).
    by rewrite !orb_false_r.
  - unfold lower. induction 1 as [|c s Hc _ IH]; [done|].
    cbn [mbind list_bind fmap list_fmap]. fold (s ≫= lower_char).
    rewrite IH. unfold lower_char, is_ascii in *.
    replace (c =? 0x130)%N with false by (symmetry; apply N.eqb_neq; lia).
    replace (c =? 0x212A)%N with false by (symmetry; apply N.eqb_neq; lia).
    done.
Defined.

(** Stand-ins for the two third-party analyzers, for running the pipeline
    on concrete texts: both report no polarity. *)
Definition no_opinion (text : list N) : VaderScores :=
  {| compound := 0.0; pos := 0.0; neu := 1.0; neg := 0.0 |}.

Definition no_sentiment (text : list N) : Q * Q := (0.0, 0.0).

End Excerpt.

(** ** The scorers as the specification words them

    Second definitions, written from the prose of the specification, to be
    compared with the methods above. *)

#[global] Instance Qlt_decision (x y : Q) : Decision (x < y) :=
  match Qlt_le_dec x y with
  | left H => left H
  | right H => right (Qle_not_lt _ _ H)
  end.

#[global] Instance Qle_decision (x y : Q) : Decision (x <= y) :=
  match Qlt_le_dec y x with
  | left H => right (Qlt_not_le _ _ H)
  | right H => left H
  end.

Module Spec.

(** The sum of a list of reals. *)
Definition total (xs : list Q) : Q := foldr Qplus 0 xs.

(** The weight of a token: taken from the positive or the negative domain
    table, 0 if it is in neither. *)
Definition weight (self : SentimentAnalyzer) (token : list N) : Q :=
  match positive_psychology_words self !! token,
        negative_psychology_words self !! token with
  | Some w, _ => w
  | None, Some w => w
  | None, None => 0
  end.

(** The contribution of each token: its weight, multiplied by the modifier
    of the token just before it when that token is a modifier. *)
Fixpoint contributions (self : SentimentAnalyzer)
    (previous : option (list N)) (tokens : list (list N)) : list Q :=
  match tokens with
  | [] => []
  | token :: rest =>
      match previous ≫= (λ p, intensity_modifiers self !! p) with
      | Some modifier => weight self token * modifier
      | None => weight self token
      end :: contributions self (Some token) rest
  end.

(** Section 4.2: the average contribution per token, 0.0 without tokens. *)
Definition domainScore (self : SentimentAnalyzer) (text : list N) : Q :=
  match Py.split text with
  | [] => 0.0
  | tokens =>
      total (contributions self None tokens) / Py.of_nat (length tokens)
  end.

(** Section 4.7: confidence from agreement and magnitude. *)
Definition confidence (general_compound general_polarity domain : Q) : Q :=
  let remaining :=
    filter (λ s, ¬ Qabs s <= 0.05)
      [general_compound; general_polarity; domain] in
  if decide (length remaining < 2)%nat then 0.5
  else
    let positive_bucket := filter (λ s, 0.1 < s) remaining in
    let negative_bucket := filter (λ s, s < -0.1) remaining in
    let neutral_bucket :=
      filter (λ s, ¬ 0.1 < s ∧ ¬ s < -0.1) remaining in
    let largest :=
      Nat.max (length positive_bucket)
        (Nat.max (length negative_bucket) (length neutral_bucket)) in
    let agreement_ratio := Py.of_nat largest / Py.of_nat (length remaining) in
    let avg_magnitude :=
      total (Qabs <$> remaining) / Py.of_nat (length remaining) in
    Qmin (agreement_ratio * 0.7 + avg_magnitude * 0.3) 1.0.

(** Section 4.5: the weighted sum, clamped to [-1.0, 1.0]. *)
Definition fuse (general_first general_second domain intensity : Q) : Q :=
  Qmax (-1.0)
    (Qmin 1.0
       (general_first * 0.35 + general_second * 0.25 + domain * 0.30
        + intensity * 0.10)).

End Spec.

(** The analyzer whose modifier table lacks the two keys that contain a
    space, ['a bit'] and ['a little']. *)
Definition without_multiword_modifiers (self : SentimentAnalyzer)
    : SentimentAnalyzer := {|
  sia := sia self;
  positive_psychology_words := positive_psychology_words self;
  negative_psychology_words := negative_psychology_words self;
  intensity_modifiers :=
    delete (Py.lit "a bit") (delete (Py.lit "a little") (intensity_modifiers self));
|}.

#[global] Instance is_ascii_decision (c : N) : Decision (is_ascii c) :=
  decide (c < 128)%N.

(** The text has a character that is not white space. *)
Definition visible (s : list N) : Prop := Exists (λ c, Py.isspace c = false) s.

(** ** [get_sentiment_summary] *)

(** The string held under ['sentiment_label']. *)
Definition label_name (label : SentimentLabel) : string :=
  match label with
  | positive => "positive"
  | neutral => "neutral"
  | negative => "negative"
  end.

Definition ascii_islower (c : N) : bool := ((97 <=? c) && (c <=? 122))%N.

Definition ascii_upper (c : N) : N := if ascii_islower c then (c - 32)%N else c.

(** [s.title()] on ASCII text: a letter after a non-letter is made upper
    case, a letter after a letter lower case.  [after_letter] tells that the
    previous character was a letter. *)
Fixpoint title_from (after_letter : bool) (s : list N) : list N :=
  match s with
  | [] => []
  | c :: s' =>
      (if after_letter then ascii_lower c else ascii_upper c)
      :: title_from (ascii_isupper c || ascii_islower c) s'
  end.

Definition title (s : list N) : list N := title_from false s.

(** The dict returned by [get_sentiment_summary]. *)
Record SentimentSummary := {
  sentiment : list N;
  confidence_description : list N;
  emotional_intensity_description : list N;
  summary : list N;
  detailed_scores : AnalysisResult;
}.

Section Summary.
Context `{U : Unicode}.
Variable textblob_sentiment : list N → Q * Q.

Definition get_sentiment_summary (self : SentimentAnalyzer) (text : list N)
    : SentimentSummary :=
  let result := analyze textblob_sentiment self text in
  let sentiment := title (Py.lit (label_name (sentiment_label result))) in
  let confidence := confidence result in
  let intensity := emotional_intensity result in
  let confidence_desc :=
    if Py.lt 0.8 confidence then Py.lit "very confident"
    else if Py.lt 0.6 confidence then Py.lit "confident"
    else if Py.lt 0.4 confidence then Py.lit "somewhat confident"
    else Py.lit "uncertain" in
  let intensity_desc :=
    if Py.lt 0.7 intensity then Py.lit "highly emotional"
    else if Py.lt 0.4 intensity then Py.lit "moderately emotional"
    else Py.lit "calm" in
  {| sentiment := sentiment;
     confidence_description := confidence_desc;
     emotional_intensity_description := intensity_desc;
     summary :=
       lower sentiment ++ Py.lit " sentiment detected with " ++ confidence_desc
       ++ Py.lit " analysis (" ++ intensity_desc ++ Py.lit " tone)";
     detailed_scores := result |}.

End Summary.

(** * The web application ([models.py], [app.py])

    The functions of [app.py] that compute over the stored entries.  A
    [datetime] is a day number (the proleptic ordinal of its date) and the
    microseconds since midnight; the range limits of Python's dates are not
    modelled.  The clock ([datetime.now()]) is an argument and does not
    advance during a call. *)

Module Models.

Record datetime := {
  day : Z;
  microsecond_of_day : Z;
}.

(** [a < b] on datetimes. *)
Definition datetime_lt (a b : datetime) : bool :=
  (day a <? day b)%Z
  || (day a =? day b)%Z && (microsecond_of_day a <? microsecond_of_day b)%Z.

(** [d - timedelta(days=n)] *)
Definition minus_days (d : datetime) (n : Z) : datetime :=
  {| day := day d - n; microsecond_of_day := microsecond_of_day d |}.

(** A row of the table [entries]. *)
Record Entry := {
  id : Z;
  mood_rating : Z;
  content : list N;
  sentiment_score : Q;
  sentiment_label : list N;
  timestamp : datetime;
  created_at : datetime;
}.

End Models.

Module App.
Import Models.

(** [sorted(entries, key=lambda x: x.timestamp, reverse=True)]: the sort is
    stable, so entries with equal timestamps keep their order; an insertion
    sort that puts an entry before the first one that is not newer gives the
    same list. *)
Fixpoint insert_newest_first (x : Entry) (l : list Entry) : list Entry :=
  match l with
  | [] => [x]
  | y :: l' =>
      if datetime_lt (timestamp x) (timestamp y)
      then y :: insert_newest_first x l'
      else x :: l
  end.

Definition sorted_newest_first (entries : list Entry) : list Entry :=
  foldr insert_newest_first [] entries.

(** *** [calculate_journal_streak] *)

(** The loop that collects the dates, each once, in order of appearance. *)
Definition unique_dates (sorted_entries : list Entry) : list Z :=
  fold_left
    (λ entry_dates entry,
       let date := day (timestamp entry) in
       if bool_decide (date ∈ entry_dates) then entry_dates
       else entry_dates ++ [date])
    sorted_entries [].

(** The loop over [entry_dates[1:]], which stops at the first gap. *)
Fixpoint count_consecutive (streak : Z) (current_date : Z) (dates : list Z)
    : Z :=
  match dates with
  | [] => streak
  | date :: rest =>
      if (date =? current_date)%Z
      then count_consecutive (streak + 1) (current_date - 1) rest
      else streak
  end.

Definition calculate_journal_streak (now : datetime) (entries : list Entry)
    : Z :=
  match entries with
  | [] => 0
  | _ =>
      let sorted_entries := sorted_newest_first entries in
      let entry_dates := unique_dates sorted_entries in
      match entry_dates with
      | [] => 0
      | first :: rest =>
          let today := day now in
          if (first =? today)%Z then count_consecutive 1 (today - 1) rest
          else if (first =? today - 1)%Z
               then count_consecutive 1 (today - 2) rest
               else 0
      end
  end%Z.

(** *** [generate_psychology_insights] *)

(** A dict with the keys ['title'] and ['content']. *)
Record Insight := {
  title : list N;
  content : list N;
}.

(** [sum(xs) / len(xs)] for a list of ints. *)
Definition mean (xs : list Z) : Q :=
  inject_Z (fold_left Z.add xs 0%Z) / Py.of_nat (length xs).

Section Insights.

(** [x ** 0.5] and [f"{x:.1f}"], which the interpreter computes on floats,
    are parameters. *)
Variable float_sqrt : Q → Q.
Variable format_1f : Q → list N.

Definition building_self_awareness (n : nat) : Insight := {|
  title := Py.lit "Building Self-Awareness " ++ [0x1F9E0%N];
  content :=
    Py.lit "You've made " ++ Py.lit (pretty n)
    ++ Py.lit " journal entries! Each entry contributes to better self-understanding. Regular journaling is a cornerstone of emotional wellness and cognitive behavioral therapy (CBT).";
|}.

Definition positive_momentum : Insight := {|
  title := Py.lit "Positive Momentum Detected " ++ [0x1F4C8%N];
  content :=
    Py.lit "Your recent entries show an upward trend in mood! This suggests that recent changes in your life, thoughts, or behaviors are having a positive impact. Consider what factors might be contributing to this improvement and how you can maintain them.";
|}.

Definition cbt_reflection : Insight := {|
  title := Py.lit "CBT Reflection Opportunity " ++ [0x1F914%N];
  content :=
    Py.lit "Your recent entries show some challenging periods. Remember that temporary setbacks are normal and part of the human experience. Try identifying any negative thought patterns and practice reframing them with evidence-based thinking.";
|}.

Definition positive_language : Insight := {|
  title := Py.lit "Positive Language Patterns " ++ [0x1F60A%N];
  content :=
    Py.lit "Your journal entries show predominantly positive language patterns. This indicates good emotional regulation and optimistic thinking patterns, which are protective factors for mental health according to positive psychology research.";
|}.

Definition cognitive_reframing : Insight := {|
  title := Py.lit "Cognitive Reframing Practice " ++ [0x1F504%N];
  content :=
    Py.lit "Your entries show some negative language patterns. Try the CBT technique of examining one negative thought per day: What evidence supports this thought? What evidence challenges it? What would you tell a friend in this situation?";
|}.

Definition excellent_consistency : Insight := {|
  title := Py.lit "Excellent Consistency! " ++ [0x1F31F%N];
  content :=
    Py.lit "You've been journaling regularly this week! Consistent self-reflection is a key component of emotional wellness and is strongly supported by psychological research on habit formation and mindfulness.";
|}.

Definition emotional_range : Insight := {|
  title := Py.lit "Emotional Range Awareness " ++ [0x1F4CA%N];
  content :=
    Py.lit "Your mood shows natural variation over time, which is completely normal. If you notice significant swings, consider tracking potential triggers like sleep quality, stress levels, or major life events to identify patterns.";
|}.

Definition steady_progress (avg_mood : Q) (n : nat) : Insight := {|
  title := Py.lit "Steady Progress " ++ [0x1F3AF%N];
  content :=
    Py.lit "You've maintained an average mood of " ++ format_1f avg_mood
    ++ Py.lit "/5 across " ++ Py.lit (pretty n)
    ++ Py.lit " entries. This consistent self-monitoring is building emotional intelligence and self-awareness - key components of psychological well-being.";
|}.

Definition generate_psychology_insights (now : datetime)
    (entries : list Entry) : list Insight :=
  if (length entries <? 3)%nat then [building_self_awareness (length entries)]
  else
    let recent_entries := take 7 (sorted_newest_first entries) in
    let all_moods := mood_rating <$> entries in
    let recent_moods := mood_rating <$> recent_entries in
    let avg_mood := mean all_moods in
    let recent_avg := mean recent_moods in
    let trend :=
      if Py.lt (avg_mood + 0.5) recent_avg then [positive_momentum]
      else if Py.lt recent_avg (avg_mood - 0.5) then [cbt_reflection]
      else [] in
    let positive_sentiment :=
      length (List.filter
                (λ entry, bool_decide (sentiment_label entry = Py.lit "positive"))
                entries) in
    let negative_sentiment :=
      length (List.filter
                (λ entry, bool_decide (sentiment_label entry = Py.lit "negative"))
                entries) in
    let language :=
      if Py.lt (Py.of_nat negative_sentiment * 1.5) (Py.of_nat positive_sentiment)
      then [positive_language]
      else if (positive_sentiment <? negative_sentiment)%nat
           then [cognitive_reframing]
           else [] in
    let consistency :=
      if (7 <=? length entries)%nat then
        let recent_week_entries :=
          List.filter
            (λ e, datetime_lt (minus_days now 7) (timestamp e)) entries in
        if (5 <=? length recent_week_entries)%nat then [excellent_consistency]
        else []
      else [] in
    let variability :=
      if (10 <=? length entries)%nat then
        let mood_variance :=
          Py.sum ((λ mood, (inject_Z mood - avg_mood) ^ 2) <$> all_moods)
          / Py.of_nat (length all_moods) in
        let mood_std := float_sqrt mood_variance in
        if Py.lt 1.2 mood_std then [emotional_range] else []
      else [] in
    let insights := trend ++ language ++ consistency ++ variability in
    match insights with
    | [] => [steady_progress avg_mood (length entries)]
    | _ => insights
    end.

(** *** [get_analytics] *)

(** The JSON object of the response. *)
Record Analytics := {
  total_entries : nat;
  avg_mood : Q;
  streak_days : Z;
  positive_ratio : Z;
  insights : list Insight;
}.

Definition no_analytics : Analytics := {|
  total_entries := 0;
  avg_mood := 0.0;
  streak_days := 0;
  positive_ratio := 0;
  insights := [];
|}.

(** [round(x, 1)] *)
Definition round1 (x : Q) : Q := inject_Z (Py.round_half_even (x * 10)) / 10.

(** [query_all] is the outcome of [Entry.query.all()]: the rows, or [None]
    when the query raises, which the handler catches. *)
Definition get_analytics (now : datetime) (query_all : option (list Entry))
    : Analytics :=
  match query_all with
  | None => no_analytics
  | Some [] => no_analytics
  | Some entries =>
      let total_entries := length entries in
      let avg_mood := mean (mood_rating <$> entries) in
      let positive_entries :=
        length (List.filter (λ entry, (4 <=? mood_rating entry)%Z) entries) in
      let positive_ratio :=
        Py.round_half_even
          (Py.of_nat positive_entries / Py.of_nat total_entries * 100) in
      {| total_entries := total_entries;
         avg_mood := round1 avg_mood;
         streak_days := calculate_journal_streak now entries;
         positive_ratio := positive_ratio;
         insights := generate_psychology_insights now entries |}
  end.

End Insights.

(** There is an entry dated [d]. *)
Definition journaled (entries : list Entry) (d : Z) : Prop :=
  ∃ entry, entry ∈ entries ∧ day (timestamp entry) = d.

(** Each of the [k] days up to [start] has an entry, the day before them
    has none, and no entry is dated after [start]. *)
Definition run_of_days (entries : list Entry) (start k : Z) : Prop :=
  (∀ d, journaled entries d → d ≤ start)%Z
  ∧ (∀ i, 0 ≤ i < k → journaled entries (start - i))%Z
  ∧ ¬ journaled entries (start - k).

(** The newest entry is dated today or yesterday. *)
Definition journaled_lately (now : datetime) (entries : list Entry) : Prop :=
  (∃ d, journaled entries d ∧ day now - 1 ≤ d)%Z
  ∧ (∀ d, journaled entries d → d ≤ day now)%Z.

(** [entry.timestamp.date()] *)
Definition date_of (entry : Entry) : Z := day (timestamp entry).

(** An entry written at midnight of day [d], for running the functions on
    concrete rows. *)
Definition entry_on (d : Z) (mood : Z) (label : string) : Entry := {|
  id := 0;
  mood_rating := mood;
  Models.content := [];
  sentiment_score := 0.0;
  sentiment_label := Py.lit label;
  timestamp := {| day := d; microsecond_of_day := 0 |};
  created_at := {| day := d; microsecond_of_day := 0 |};
|}.

Definition noon (d : Z) : datetime :=
  {| day := d; microsecond_of_day := 43200000000 |}.

(** [a] may stand before [b] in a list that is newest first: [b] is not
    dated later than [a]. *)
Definition not_later (a b : Entry) : Prop := (date_of b ≤ date_of a)%Z.

End App.

(** ** Characters that lower-casing leaves upper-case *)

(** [c] is upper-case and [lower] leaves it as it is: it has no lower-case
    form (U+2102 is one such character; no ASCII character is). *)
Definition stays_upper `{U : Unicode} (c : N) : Prop :=
  isupper c = true ∧ lower [c] = [c].

#[global] Instance stays_upper_decision `{U : Unicode} (c : N) :
  Decision (stays_upper c).
Proof. unfold stays_upper. apply _. Defined.

(** What the tables of CPython satisfy: [lower] makes no upper-case
    character.  An upper-case character of [s.lower()] is a character of
    [s] that [lower] leaves as it is. *)
Definition lower_makes_no_upper `{U : Unicode} : Prop :=
  ∀ (s : list N) (d : N),
    d ∈ lower s → isupper d = true → d ∈ s ∧ lower [d] = [d].

(** * Properties *)

(** ** The pipeline on concrete texts *)

Example preprocess_text_contractions :
  preprocess_text (U := Excerpt.unicode)
    (Py.lit "  I'm   HAPPY, don't you're_ 'I'M' ")
  = Py.lit "i am happy, do not you're_ 'i am'".
Proof. by vm_compute. Qed.

Example analyze_calls_every_scorer :
  (analyze_traced (U := Excerpt.unicode) Excerpt.no_sentiment
     (init Excerpt.no_opinion) (Py.lit "So  Proud")).2
  = [ VaderCall (Py.lit "so proud"); TextBlobCall (Py.lit "so proud");
      PsychologyCall (Py.lit "so proud"); IntensityCall (Py.lit "so proud") ].
Proof. by vm_compute. Qed.

Example psychology_weighted_analysis_anxious :
  psychology_weighted_analysis (init Excerpt.no_opinion)
    (Py.lit "i feel extremely anxious today") == -0.63.
Proof. by vm_compute. Qed.

(** ** Facts about the built-ins *)

Module PyFacts.

Lemma lt_true x y : Py.lt x y = true ↔ x < y.
Proof.
  unfold Py.lt. rewrite negb_true_iff, <- not_true_iff_false, Qle_bool_iff.
  split; [apply Qnot_le_lt | apply Qlt_not_le].
Qed.

Lemma lt_false x y : Py.lt x y = false ↔ y <= x.
Proof. unfold Py.lt. by rewrite negb_false_iff, Qle_bool_iff. Qed.

Lemma le_true x y : Py.le x y = true ↔ x <= y.
Proof. apply Qle_bool_iff. Qed.

Lemma le_false x y : Py.le x y = false ↔ y < x.
Proof.
  unfold Py.le. rewrite <- not_true_iff_false, Qle_bool_iff.
  split; [apply Qnot_le_lt | apply Qlt_not_le].
Qed.

Lemma min_Qmin x y : Py.min x y == Qmin x y.
Proof.
  unfold Py.min. destruct (Py.lt y x) eqn:E.
  - apply lt_true in E. symmetry. apply Q.min_r. lra.
  - apply lt_false in E. symmetry. by apply Q.min_l.
Qed.

Lemma max_Qmax x y : Py.max x y == Qmax x y.
Proof.
  unfold Py.max. destruct (Py.lt x y) eqn:E.
  - apply lt_true in E. symmetry. apply Q.max_r. lra.
  - apply lt_false in E. symmetry. by apply Q.max_l.
Qed.

Lemma min_le_l x y : Py.min x y <= x.
Proof. rewrite min_Qmin. apply Q.le_min_l. Qed.

Lemma min_le_r x y : Py.min x y <= y.
Proof. rewrite min_Qmin. apply Q.le_min_r. Qed.

Lemma min_glb x y z : z <= x → z <= y → z <= Py.min x y.
Proof. rewrite min_Qmin. apply Q.min_glb. Qed.

Lemma max_le_l x y : x <= Py.max x y.
Proof. rewrite max_Qmax. apply Q.le_max_l. Qed.

Lemma max_lub x y z : x <= z → y <= z → Py.max x y <= z.
Proof. rewrite max_Qmax. apply Q.max_lub. Qed.

Lemma of_nat_nonneg n : 0 <= Py.of_nat n.
Proof. unfold Py.of_nat, Qle. simpl. lia. Qed.

Lemma of_nat_pos n : (0 < n)%nat → 0 < Py.of_nat n.
Proof. unfold Py.of_nat, Qlt. simpl. lia. Qed.

Lemma of_nat_le n m : (n ≤ m)%nat → Py.of_nat n <= Py.of_nat m.
Proof. unfold Py.of_nat, Qle. simpl. lia. Qed.

End PyFacts.

(** ** The classifier *)

Lemma classify_positive_iff x : classify_sentiment x = positive ↔ 0.15 <= x.
Proof.
  unfold classify_sentiment.
  destruct (Py.le 0.15 x) eqn:E1.
  - apply PyFacts.le_true in E1. done.
  - apply PyFacts.le_false in E1.
    split; [by destruct (Py.le x (-0.15)) | intros; lra].
Qed.

Lemma classify_negative_iff x : classify_sentiment x = negative ↔ x <= -0.15.
Proof.
  unfold classify_sentiment.
  destruct (Py.le 0.15 x) eqn:E1.
  - apply PyFacts.le_true in E1. split; [done | intros; lra].
  - destruct (Py.le x (-0.15)) eqn:E2.
    + apply PyFacts.le_true in E2. done.
    + apply PyFacts.le_false in E2. split; [done | intros; lra].
Qed.

(** C3.  For every score [x], [classify_sentiment] answers positive exactly
    when [x >= 0.15], negative exactly when [x <= -0.15], and neutral exactly
    in between; at the four boundary values 0.15, 0.1499, -0.15 and -0.1499
    it answers positive, neutral, negative and neutral. *)
Theorem classify_sentiment_thresholds :
  (∀ x : Q,
     (classify_sentiment x = positive ↔ 0.15 <= x)
     ∧ (classify_sentiment x = negative ↔ x <= -0.15)
     ∧ (classify_sentiment x = neutral ↔ -0.15 < x ∧ x < 0.15))
  ∧ classify_sentiment 0.15 = positive
  ∧ classify_sentiment 0.1499 = neutral
  ∧ classify_sentiment (-0.15) = negative
  ∧ classify_sentiment (-0.1499) = neutral.
Proof.
  split; [|by vm_compute].
  intros x. split_and!.
  - apply classify_positive_iff.
  - apply classify_negative_iff.
  - pose proof (classify_positive_iff x) as Hp.
    pose proof (classify_negative_iff x) as Hn.
    split.
    + intros Hx. split; apply Qnot_le_lt; intros Hle.
      * apply Hn in Hle. congruence.
      * apply Hp in Hle. congruence.
    + intros [H1 H2]. destruct (classify_sentiment x); [|done|].
      * assert (0.15 <= x) by by apply Hp. lra.
      * assert (x <= -0.15) by by apply Hn. lra.
Qed.

(** ** Score fusion *)

(** C7.  The fused score is the weighted sum of the two general-purpose
    scores (0.35 and 0.25), the domain-weighted score (0.30) and the
    intensity score (0.10), clamped to [-1.0, 1.0] after the sum. *)
Theorem calculate_combined_score_weighted_clamped
    (vader_compound textblob_polarity psych_score intensity_score : Q) :
  calculate_combined_score vader_compound textblob_polarity psych_score
    intensity_score
  == Spec.fuse vader_compound textblob_polarity psych_score intensity_score.
Proof.
  unfold calculate_combined_score, Spec.fuse.
  by rewrite PyFacts.max_Qmax, PyFacts.min_Qmin.
Qed.

(** ** The confidence estimator *)

Section Confidence.

(** A filter by a boolean test is the filter by the property it decides. *)
Lemma filter_bool_decide {A} (f : A → bool) (P : A → Prop)
    `{∀ x, Decision (P x)} (l : list A) :
  (∀ x, f x = true ↔ P x) → List.filter f l = filter P l.
Proof.
  intros Hf. induction l as [|x l IH]; [done|].
  cbn [List.filter]. rewrite filter_cons, IH.
  destruct (decide (P x)) as [HP|HP], (f x) eqn:E; try done.
  - apply Hf in HP. congruence.
  - apply Hf in E. done.
Qed.

(** The three buckets partition the scores. *)
Lemma buckets_partition (l : list Q) :
  (length (filter (λ s, 0.1 < s)%Q l) + length (filter (λ s, s < -0.1)%Q l)
   + length (filter (λ s, ¬ 0.1 < s ∧ ¬ s < -0.1)%Q l))%nat = length l.
Proof.
  induction l as [|x l IH]; [done|].
  rewrite !filter_cons.
  destruct (decide (0.1 < x)), (decide (x < -0.1)),
    (decide (¬ 0.1 < x ∧ ¬ x < -0.1)); cbn [length]; try lia;
    try tauto; lra.
Qed.

Lemma sum_from (xs : list Q) (a : Q) :
  fold_left Qplus xs a == a + Spec.total xs.
Proof.
  unfold Spec.total.
  revert a. induction xs as [|x xs IH]; intros a; cbn [fold_left foldr].
  - ring.
  - rewrite IH. ring.
Qed.

Lemma sum_total (xs : list Q) : Py.sum xs == Spec.total xs.
Proof. unfold Py.sum. rewrite sum_from. ring. Qed.

Lemma total_abs_nonneg (xs : list Q) : 0 <= Spec.total (Qabs <$> xs).
Proof.
  unfold Spec.total.
  induction xs as [|x xs IH]; cbn [fmap list_fmap foldr]; [lra|].
  pose proof (Qabs_nonneg x). fold (fmap Qabs xs). lra.
Qed.

Lemma bool_filter_length_le {A} (f : A → bool) (l : list A) :
  (length (List.filter f l) ≤ length l)%nat.
Proof. induction l as [|x l IH]; cbn; [lia|]. destruct (f x); cbn; lia. Qed.

End Confidence.

(** C6.  The confidence estimator drops every score of absolute value at
    most 0.05; with fewer than two scores left it returns exactly 0.5;
    otherwise it returns (largest bucket / scores left) * 0.7 + (average
    absolute value) * 0.3, clamped to at most 1.0, the buckets being
    positive (> 0.1), negative (< -0.1) and neutral. *)
Theorem calculate_confidence_agreement
    (vader_scores : VaderScores) (textblob_polarity psych_score : Q) :
  calculate_confidence vader_scores textblob_polarity psych_score
  == Spec.confidence (compound vader_scores) textblob_polarity psych_score
  ∧ ((length (filter (λ s, ¬ Qabs s <= 0.05)%Q
        [compound vader_scores; textblob_polarity; psych_score]) < 2)%nat →
     calculate_confidence vader_scores textblob_polarity psych_score = 0.5).
Proof.
  unfold calculate_confidence, Spec.confidence.
  rewrite (filter_bool_decide _ (λ s, ¬ Qabs s <= 0.05)); last first.
  { intros s. rewrite PyFacts.lt_true. split; [apply Qlt_not_le | apply Qnot_le_lt]. }
  set (remaining := filter _ _).
  rewrite (filter_bool_decide _ (λ s, 0.1 < s)) by (intros; apply PyFacts.lt_true).
  rewrite (filter_bool_decide _ (λ s, s < -0.1)) by (intros; apply PyFacts.lt_true).
  pose proof (buckets_partition remaining) as Hparts.
  destruct (decide (length remaining < 2)%nat) as [Hlt|Hge].
  - apply Nat.ltb_lt in Hlt as Hb. by rewrite Hb.
  - apply Nat.ltb_nlt in Hge as Hb. rewrite Hb. split; [|lia].
    rewrite PyFacts.min_Qmin, sum_total.
    set (p := length (filter (λ s, 0.1 < s) remaining)) in *.
    set (n := length (filter (λ s, s < -0.1) remaining)) in *.
    set (u := length (filter (λ s, ¬ 0.1 < s ∧ ¬ s < -0.1) remaining)) in *.
    replace (Z.of_nat (length remaining) - Z.of_nat p - Z.of_nat n)%Z
      with (Z.of_nat u) by lia.
    replace (Z.max (Z.max (Z.of_nat p) (Z.of_nat n)) (Z.of_nat u))
      with (Z.of_nat (Nat.max p (Nat.max n u))) by lia.
    reflexivity.
Qed.

Lemma calculate_confidence_agreement_witness :
  calculate_confidence {| compound := 0.8; pos := 0.6; neu := 0.4; neg := 0.0 |}
    0.02 0.0 = 0.5.
Proof.
  apply (proj2 (calculate_confidence_agreement
                  {| compound := 0.8; pos := 0.6; neu := 0.4; neg := 0.0 |}
                  0.02 0.0)).
  vm_compute. lia.
Defined.

(** ** Boundedness of the result *)

Section Bounds.

Lemma round_half_even_floor (x : Q) :
  Py.round_half_even x = Qfloor x
  ∨ (Py.round_half_even x = (Qfloor x + 1)%Z ∧ inject_Z (Qfloor x) < x).
Proof.
  unfold Py.round_half_even.
  destruct (Py.lt (x - inject_Z (Qfloor x)) 0.5) eqn:E1; [by left|].
  apply PyFacts.lt_false in E1.
  destruct (Py.lt 0.5 (x - inject_Z (Qfloor x))), (Z.even (Qfloor x));
    (by left) || (right; split; [done|lra]).
Qed.

(** Rounding never crosses an integer. *)
Lemma round_half_even_between (a b : Z) (x : Q) :
  inject_Z a <= x → x <= inject_Z b →
  (a ≤ Py.round_half_even x ≤ b)%Z.
Proof.
  intros Ha Hb.
  assert (a ≤ Qfloor x)%Z as Hfa.
  { rewrite <- (Qfloor_Z a). by apply Qfloor_resp_le. }
  assert (Qfloor x ≤ b)%Z as Hfb.
  { rewrite <- (Qfloor_Z b). by apply Qfloor_resp_le. }
  destruct (round_half_even_floor x) as [->|[-> Hlt]]; [lia|].
  split; [lia|].
  assert (inject_Z (Qfloor x) < inject_Z b) as Hs by lra.
  rewrite <- Zlt_Qlt in Hs. lia.
Qed.

Lemma round3_between (a b : Z) (x : Q) :
  inject_Z a <= x → x <= inject_Z b →
  inject_Z a <= Py.round3 x ∧ Py.round3 x <= inject_Z b.
Proof.
  intros Ha Hb. unfold Py.round3.
  destruct (round_half_even_between (a * 1000) (b * 1000) (x * 1000))
    as [H1 H2].
  - rewrite inject_Z_mult. change (inject_Z 1000) with 1000. lra.
  - rewrite inject_Z_mult. change (inject_Z 1000) with 1000. lra.
  - rewrite Zle_Qle, inject_Z_mult in H1, H2.
    change (inject_Z 1000) with 1000 in *.
    set (r := inject_Z (Py.round_half_even (x * 1000))) in *.
    split.
    + apply Qle_shift_div_l; lra.
    + apply Qle_shift_div_r; lra.
Qed.

Lemma calculate_combined_score_bounded (v t p i : Q) :
  -1 <= calculate_combined_score v t p i
  ∧ calculate_combined_score v t p i <= 1.
Proof.
  unfold calculate_combined_score.
  match goal with |- context [Py.max ?a (Py.min ?b ?c)] =>
    pose proof (PyFacts.max_le_l a (Py.min b c));
    pose proof (PyFacts.min_le_l b c)
  end.
  split; [lra|]. apply PyFacts.max_lub; lra.
Qed.

Lemma div_nonneg (a b : Q) : 0 <= a → 0 < b → 0 <= a / b.
Proof. intros Ha Hb. apply Qle_shift_div_l; lra. Qed.

Lemma calculate_confidence_bounded (vs : VaderScores) (t p : Q) :
  0 <= calculate_confidence vs t p ∧ calculate_confidence vs t p <= 1.
Proof.
  unfold calculate_confidence.
  set (non_zero_scores := List.filter _ _).
  destruct (length non_zero_scores <? 2)%nat eqn:E; [lra|].
  apply Nat.ltb_ge in E.
  assert (0 < Py.of_nat (length non_zero_scores)) as Hlen
    by (apply PyFacts.of_nat_pos; lia).
  split.
  - apply PyFacts.min_glb; [|lra].
    assert (0 <= Py.sum (Qabs <$> non_zero_scores)) as Hsum
      by (rewrite sum_total; apply total_abs_nonneg).
    pose proof (div_nonneg _ _ Hsum Hlen) as Havg.
    match goal with |- 0 <= inject_Z ?m / _ * _ + _ =>
      assert (0 <= inject_Z m) as Hm
        by (change 0 with (inject_Z 0); rewrite <- Zle_Qle; lia);
      pose proof (div_nonneg _ _ Hm Hlen) as Hagree
    end.
    nra.
  - match goal with |- Py.min ?a ?b <= _ =>
      pose proof (PyFacts.min_le_r a b)
    end.
    lra.
Qed.

End Bounds.

(** C1.  For every input text, the result of [analyze] has its
    [compound_score] in [-1.0, 1.0] and its [confidence] in [0.0, 1.0],
    whatever the two third-party analyzers return. *)
Theorem analyze_bounded `{U : Unicode} (textblob_sentiment : list N → Q * Q)
    (self : SentimentAnalyzer) (text : list N) :
  -1.0 <= compound_score (analyze textblob_sentiment self text)
  ∧ compound_score (analyze textblob_sentiment self text) <= 1.0
  ∧ 0.0 <= confidence (analyze textblob_sentiment self text)
  ∧ confidence (analyze textblob_sentiment self text) <= 1.0.
Proof.
  unfold analyze, analyze_traced.
  destruct (bool_decide (text = []) || bool_decide (Py.strip text = [])).
  { cbn. repeat split; lra. }
  cbn [mbind traced_bind invoke mret traced_ret fst snd compound_score
       confidence].
  match goal with |- context [Py.round3 (calculate_combined_score ?v ?t ?p ?i)] =>
    destruct (calculate_combined_score_bounded v t p i) as [Hc1 Hc2];
    destruct (round3_between (-1) 1 _ Hc1 Hc2) as [Hr1 Hr2]
  end.
  match goal with |- context [Py.round3 (calculate_confidence ?v ?t ?p)] =>
    destruct (calculate_confidence_bounded v t p) as [Hf1 Hf2];
    destruct (round3_between 0 1 _ Hf1 Hf2) as [Hs1 Hs2]
  end.
  change (inject_Z (-1)) with (-1) in *. change (inject_Z 1) with 1 in *.
  change (inject_Z 0) with 0 in *.
  repeat split; lra.
Qed.

(** ** Blank input *)

Section Blank.

Lemma lstrip_blank (s : list N) :
  Forall (λ c, Py.isspace c = true) s → Py.lstrip s = [].
Proof. induction 1 as [|c s Hc _ IH]; [done|]. cbn. by rewrite Hc. Qed.

Lemma strip_blank (s : list N) :
  Forall (λ c, Py.isspace c = true) s → Py.strip s = [].
Proof. intros Hs. unfold Py.strip. by rewrite lstrip_blank. Qed.

End Blank.

(** C2.  For a text that is empty or consists of white space only,
    [analyze] returns the fixed neutral result ([compound_score] 0.0, label
    neutral, [confidence] 0.0, [word_count] 0) and calls none of the scoring
    methods. *)
Theorem analyze_blank `{U : Unicode} (textblob_sentiment : list N → Q * Q)
    (self : SentimentAnalyzer) (text : list N) :
  Forall (λ c, Py.isspace c = true) text →
  analyze_traced textblob_sentiment self text = (_empty_result, [])
  ∧ compound_score (analyze textblob_sentiment self text) = 0.0
  ∧ sentiment_label (analyze textblob_sentiment self text) = neutral
  ∧ confidence (analyze textblob_sentiment self text) = 0.0
  ∧ word_count (analyze textblob_sentiment self text) = 0%nat.
Proof.
  intros Hblank.
  assert (analyze_traced textblob_sentiment self text = (_empty_result, []))
    as Hrun.
  { unfold analyze_traced. rewrite (strip_blank _ Hblank).
    by destruct (bool_decide (text = [])). }
  unfold analyze. by rewrite Hrun.
Qed.

Lemma analyze_blank_witness :
  analyze_traced (U := Excerpt.unicode) Excerpt.no_sentiment
    (init Excerpt.no_opinion) (Py.lit "   ") = (_empty_result, [])
  ∧ analyze_traced (U := Excerpt.unicode) Excerpt.no_sentiment
      (init Excerpt.no_opinion) (Py.lit "") = (_empty_result, []).
Proof.
  split.
  - apply (analyze_blank (U := Excerpt.unicode) Excerpt.no_sentiment
             (init Excerpt.no_opinion) (Py.lit "   ")).
    repeat constructor.
  - apply (analyze_blank (U := Excerpt.unicode) Excerpt.no_sentiment
             (init Excerpt.no_opinion) (Py.lit "")).
    constructor.
Defined.

(** ** The lexicon tables *)

Section Lexicon.

Lemma dict_Forall (P : Q → Prop) (items : list (string * Q)) :
  Forall (λ item, P item.2) items → map_Forall (λ _ w, P w) (dict items).
Proof.
  intros Hitems word w Hw. unfold dict in Hw.
  apply elem_of_list_to_map_2, list_elem_of_fmap in Hw
    as [[key w'] [Heq Hin]].
  rewrite Forall_forall in Hitems. apply Hitems in Hin.
  by simplify_eq/=.
Qed.

Lemma domain_tables_disjoint : dict positive_items ##ₘ dict negative_items.
Proof.
  apply map_disjoint_dom_2, (bool_decide_unpack _). by vm_compute.
Qed.

End Lexicon.

(** C9.  No word is a key of both domain tables, every weight of the
    positive table is greater than 0 and every weight of the negative table
    is less than 0. *)
Theorem domain_tables_disjoint_signed (polarity_scores : list N → VaderScores) :
  (∀ word : list N,
     ¬ (is_Some (positive_psychology_words (init polarity_scores) !! word)
        ∧ is_Some (negative_psychology_words (init polarity_scores) !! word)))
  ∧ map_Forall (λ _ w, 0 < w) (positive_psychology_words (init polarity_scores))
  ∧ map_Forall (λ _ w, w < 0) (negative_psychology_words (init polarity_scores)).
Proof.
  cbn [init positive_psychology_words negative_psychology_words].
  split_and!.
  - intros word [[w1 H1] [w2 H2]].
    by eapply (map_disjoint_spec (dict positive_items)); [apply domain_tables_disjoint|..].
  - apply (dict_Forall (Qlt 0)). repeat (constructor; [reflexivity|]). constructor.
  - apply (dict_Forall (λ w, w < 0)). repeat (constructor; [reflexivity|]). constructor.
Qed.

(** ** The domain-weighted scorer *)

Section DomainScorer.
Variable self : SentimentAnalyzer.

(** The loop body at index [length before] computes the contribution the
    specification gives the token after [before]. *)
Lemma word_score_at_contribution (before : list (list N)) (word : list N)
    (rest : list (list N)) :
  word_score_at self (before ++ word :: rest) (length before) word
  == match last before ≫= (λ p, intensity_modifiers self !! p) with
     | Some modifier => Spec.weight self word * modifier
     | None => Spec.weight self word
     end.
Proof.
  unfold word_score_at.
  match goal with |- context [if _ then _ else ?b] => set (word_score := b) end.
  assert (word_score == Spec.weight self word) as Hbase.
  { unfold word_score, Spec.weight.
    destruct (positive_psychology_words self !! word); [done|].
    by destruct (negative_psychology_words self !! word). }
  induction before as [|first before _] using rev_ind; [done|].
  rewrite length_app, last_snoc. cbn [length mbind option_bind].
  replace (0 <? length before + 1)%nat with true
    by (symmetry; apply Nat.ltb_lt; lia).
  replace (length before + 1 - 1)%nat with (length before) by lia.
  rewrite <- app_assoc. cbn [app]. rewrite list_lookup_middle by done.
  destruct (intensity_modifiers self !! first); by rewrite Hbase.
Qed.

Lemma loop_from (before rest : list (list N)) (total : Q) :
  fold_left
    (λ total '(i, word),
       total + word_score_at self (before ++ rest) i word)
    (imap (λ i, pair (length before + i)%nat) rest) total
  == total + Spec.total (Spec.contributions self (last before) rest).
Proof.
  revert before total.
  induction rest as [|word rest IH]; intros before total.
  - cbn. ring.
  - cbn [imap fold_left Spec.contributions Spec.total foldr].
    fold (Spec.total (Spec.contributions self (Some word) rest)).
    replace (length before + 0)%nat with (length before) by lia.
    rewrite (imap_ext _ (λ i, pair (length (before ++ [word]) + i)%nat));
      last first.
    { intros i w _. cbn. rewrite length_app. cbn. f_equal. lia. }
    replace (before ++ word :: rest) with ((before ++ [word]) ++ rest)
      by by rewrite <- app_assoc.
    rewrite IH, last_snoc.
    rewrite <- app_assoc. cbn [app].
    rewrite word_score_at_contribution. ring.
Qed.

Lemma total_score_contributions (words : list (list N)) :
  total_score self words
  == Spec.total (Spec.contributions self None words).
Proof.
  unfold total_score.
  pose proof (loop_from [] words 0.0) as Hloop.
  cbn [app length last Nat.add] in Hloop. rewrite Hloop. ring.
Qed.

End DomainScorer.

(** C5.  On every text the domain-weighted scorer equals the reference
    definition: the tokens are the white-space-delimited pieces, each token
    contributes its domain weight (0 if in neither table) times the modifier of
    the token just before it when that one is a modifier, and the score is
    the sum of the contributions over the number of tokens; without tokens
    it is exactly 0.0. *)
Theorem psychology_weighted_analysis_reference (self : SentimentAnalyzer)
    (text : list N) :
  psychology_weighted_analysis self text == Spec.domainScore self text
  ∧ (Py.split text = [] → psychology_weighted_analysis self text = 0.0).
Proof.
  unfold psychology_weighted_analysis, Spec.domainScore.
  destruct (Py.split text) as [|word words] eqn:Hsplit; [done|].
  cbn [length Nat.eqb]. split; [|done].
  by rewrite total_score_contributions.
Qed.

Lemma psychology_weighted_analysis_reference_witness :
  psychology_weighted_analysis (init Excerpt.no_opinion) (Py.lit "  ") = 0.0.
Proof.
  apply (proj2 (psychology_weighted_analysis_reference
                  (init Excerpt.no_opinion) (Py.lit "  "))).
  reflexivity.
Defined.

(** *** A modifier before a domain word *)

(** C4, as stated, fails: on ["very grateful"] the scorer does not return
    more than on ["grateful"]: the modifier is a token of its own and the sum is divided
    by two tokens instead of one. *)
Lemma very_grateful_not_above_grateful :
  ¬ (psychology_weighted_analysis (init Excerpt.no_opinion) (Py.lit "grateful")
     < psychology_weighted_analysis (init Excerpt.no_opinion)
         (Py.lit "very grateful")).
Proof. vm_compute. discriminate. Qed.

(** C4 (amended).  With [grateful] at 2.0 and [very] at 1.3, the sum of
    contributions that the scorer accumulates is 2.6 for ["very grateful"]
    and 2.0 for ["grateful"], so the modifier amplifies the following word;
    the scorer itself, which divides by the number of tokens, returns 1.3 for
    ["very grateful"] and 2.0 for ["grateful"]. *)
Theorem very_grateful_amplified_before_normalisation
    (polarity_scores : list N → VaderScores) :
  positive_psychology_words (init polarity_scores) !! Py.lit "grateful" = Some 2.0
  ∧ intensity_modifiers (init polarity_scores) !! Py.lit "very" = Some 1.3
  ∧ total_score (init polarity_scores) (Py.split (Py.lit "grateful")) == 2.0
  ∧ total_score (init polarity_scores) (Py.split (Py.lit "very grateful")) == 2.6
  ∧ total_score (init polarity_scores) (Py.split (Py.lit "grateful"))
    < total_score (init polarity_scores) (Py.split (Py.lit "very grateful"))
  ∧ psychology_weighted_analysis (init polarity_scores) (Py.lit "grateful") == 2.0
  ∧ psychology_weighted_analysis (init polarity_scores) (Py.lit "very grateful")
    == 1.3.
Proof. split_and!; by vm_compute. Qed.

(** *** The modifier keys that contain a space *)

Section Tokens.

Lemma split_from_no_space (cur s : list N) :
  Forall (λ c, Py.isspace c = false) cur →
  Forall (Forall (λ c, Py.isspace c = false)) (Py.split_from cur s).
Proof.
  revert cur. induction s as [|c s IH]; intros cur Hcur; cbn.
  - destruct cur; [constructor|].
    repeat constructor. by apply Forall_reverse.
  - destruct (Py.isspace c) eqn:Hc.
    + destruct cur; [by apply IH|].
      constructor; [by apply Forall_reverse | by apply IH].
    + apply IH. by constructor.
Qed.

(** No token of [split] contains a white-space character. *)
Lemma split_no_space (s : list N) :
  Forall (Forall (λ c, Py.isspace c = false)) (Py.split s).
Proof. apply split_from_no_space. constructor. Qed.

Lemma no_space_not_multiword (token : list N) :
  Forall (λ c, Py.isspace c = false) token →
  token ≠ Py.lit "a bit" ∧ token ≠ Py.lit "a little".
Proof.
  intros Htoken. split; intros ->;
    by apply (Forall_lookup_1 _ _ 1%nat 32%N) in Htoken.
Qed.

Lemma fold_left_pointwise {A B} (f g : A → B → A) (l : list B) (a : A) :
  (∀ a b, f a b = g a b) → fold_left f l a = fold_left g l a.
Proof.
  intros Hfg. revert a. induction l as [|b l IH]; intros a; [done|].
  cbn. by rewrite Hfg, IH.
Qed.

Lemma word_score_at_without_multiword (self : SentimentAnalyzer)
    (words : list (list N)) (i : nat) (word : list N) :
  Forall (Forall (λ c, Py.isspace c = false)) words →
  word_score_at (without_multiword_modifiers self) words i word
  = word_score_at self words i word.
Proof.
  intros Hwords. unfold word_score_at.
  cbn [without_multiword_modifiers positive_psychology_words
       negative_psychology_words intensity_modifiers].
  destruct (0 <? i)%nat; [|done].
  destruct (words !! (i - 1)%nat) as [previous|] eqn:Hprev; [|done].
  apply (Forall_lookup_1 _ _ _ _ Hwords), no_space_not_multiword in Hprev
    as [Hbit Hlittle].
  by rewrite !lookup_delete_ne.
Qed.

End Tokens.

(** C10.  No token of a text equals ['a bit'] or ['a little'], since tokens
    come from splitting at white space; so these two entries of the modifier
    table never change a word's score, and the domain-weighted scorer with
    the full table equals the scorer with the two entries removed. *)
Theorem multiword_modifiers_never_apply
    (polarity_scores : list N → VaderScores) (text : list N) :
  Forall (λ token, token ≠ Py.lit "a bit" ∧ token ≠ Py.lit "a little")
    (Py.split text)
  ∧ intensity_modifiers (init polarity_scores) !! Py.lit "a bit" = Some 0.6
  ∧ intensity_modifiers (init polarity_scores) !! Py.lit "a little" = Some 0.6
  ∧ psychology_weighted_analysis (init polarity_scores) text
    = psychology_weighted_analysis
        (without_multiword_modifiers (init polarity_scores)) text.
Proof.
  pose proof (split_no_space text) as Htokens.
  split_and!; [|by vm_compute..|].
  - eapply Forall_impl; [exact Htokens|]. apply no_space_not_multiword.
  - unfold psychology_weighted_analysis, total_score.
    destruct (length (Py.split text) =? 0)%nat; [done|].
    f_equal. apply fold_left_pointwise. intros total [i word].
    by rewrite word_score_at_without_multiword.
Qed.

(** ** The upper-case ratio after normalisation *)

(** C8, as stated, fails: the normalised form of the one-character text
    U+2102 still holds an upper-case character: [lower] has nothing to map it to.  Its upper-case
    ratio is 1 and the term weighs 0.2 in the intensity score. *)
Lemma caps_term_nonzero_after_lower :
  ¬ (caps_ratio (U := Excerpt.unicode)
       (preprocess_text (U := Excerpt.unicode) [0x2102%N]) * 0.2 == 0).
Proof. vm_compute. discriminate. Qed.

Example intensity_of_double_struck_C :
  emotional_intensity
    (analyze (U := Excerpt.unicode) Excerpt.no_sentiment
       (init Excerpt.no_opinion) [0x2102%N]) == 0.2.
Proof. by vm_compute. Qed.

Section AsciiText.
Context `{U : Unicode}.

Lemma lstrip_ascii (s : list N) : Forall is_ascii s → Forall is_ascii (Py.lstrip s).
Proof.
  induction 1 as [|c s Hc Hs IH]; cbn; [constructor|].
  destruct (Py.isspace c); [done | by constructor].
Qed.

Lemma strip_ascii (s : list N) : Forall is_ascii s → Forall is_ascii (Py.strip s).
Proof.
  intros Hs. unfold Py.strip, Py.rstrip.
  by apply Forall_reverse, lstrip_ascii, Forall_reverse, lstrip_ascii.
Qed.

Lemma collapse_whitespace_ascii (in_run : bool) (s : list N) :
  Forall is_ascii s → Forall is_ascii (collapse_whitespace in_run s).
Proof.
  intros Hs. revert in_run.
  induction Hs as [|c s Hc Hs IH]; intros in_run; cbn; [constructor|].
  destruct (Py.isspace c); [destruct in_run|]; try constructor; done.
Qed.

Lemma sub_word_from_ascii (pat repl : list N) (prev : option N) (skip : nat)
    (s : list N) :
  Forall is_ascii repl → Forall is_ascii s →
  Forall is_ascii (sub_word_from pat repl prev skip s).
Proof.
  intros Hrepl Hs. revert prev skip.
  induction Hs as [|c s Hc Hs IH]; intros prev skip; cbn [sub_word_from];
    [constructor|].
  destruct skip; [|done].
  destruct (match_here pat prev (c :: s)).
  - by apply Forall_app.
  - by constructor.
Qed.

Lemma expansions_ascii :
  Forall (λ item : string * string, Forall is_ascii (Py.lit item.2))
    contractions.
Proof. apply (bool_decide_unpack _). by vm_compute. Qed.

Lemma expand_contractions_ascii (text : list N) :
  Forall is_ascii text → Forall is_ascii (expand_contractions text).
Proof.
  unfold expand_contractions. generalize expansions_ascii.
  generalize contractions. intros items Hitems. revert text.
  induction Hitems as [|[contraction expansion] items Hitem _ IH];
    intros text Htext; cbn [fold_left]; [done|].
  apply IH. by apply sub_word_from_ascii.
Qed.

Lemma ascii_lower_not_upper (c : N) :
  is_ascii c → is_ascii (ascii_lower c) ∧ ascii_isupper (ascii_lower c) = false.
Proof.
  unfold is_ascii, ascii_lower, ascii_isupper. intros Hc.
  destruct (65 <=? c)%N eqn:E1, (c <=? 90)%N eqn:E2; cbn [andb];
    rewrite ?E1, ?E2; cbn [andb]; try (split; [lia|done]).
  apply N.leb_le in E1, E2. split; [lia|].
  replace (c + 32 <=? 90)%N with false by (symmetry; apply N.leb_gt; lia).
  apply andb_false_r.
Qed.

(** Lower-cased ASCII text has no upper-case character. *)
Lemma lower_ascii_no_upper (s : list N) :
  Forall is_ascii s → List.filter isupper (lower s) = [].
Proof.
  intros Hs. rewrite (lower_ascii s Hs).
  induction Hs as [|c s Hc Hs IH]; [done|].
  destruct (ascii_lower_not_upper c Hc) as [Hl Hu].
  cbn [fmap list_fmap List.filter]. fold (fmap ascii_lower s).
  by rewrite (isupper_ascii _ Hl), Hu.
Qed.

Lemma preprocess_text_no_upper (text : list N) :
  Forall is_ascii text → List.filter isupper (preprocess_text text) = [].
Proof.
  intros Htext. unfold preprocess_text.
  by apply lower_ascii_no_upper, expand_contractions_ascii,
    collapse_whitespace_ascii, strip_ascii.
Qed.

End AsciiText.

(** ASCII text, whatever the tables say about other characters: the
    intensity scorer, called as [analyze] calls it on the normalised text,
    gets 0 from its upper-case-ratio term. *)
Lemma caps_term_zero_on_ascii `{U : Unicode} (text : list N) :
  Forall is_ascii text →
  caps_ratio (preprocess_text text) * 0.2 == 0
  ∧ analyze_emotional_intensity (preprocess_text text)
    == Qmin
         (Py.of_nat (intensity_count (Py.split (preprocess_text text)))
          / Py.of_nat (Nat.max (length (Py.split (preprocess_text text))) 1)
          * 0.5
          + Py.of_nat (Py.count 33%N (preprocess_text text))
            / Py.of_nat
                (Nat.max (length (Py.split_on 46%N (preprocess_text text))) 1)
            * 0.3)
         1.0.
Proof.
  intros Htext.
  assert (caps_ratio (preprocess_text text) == 0) as Hcaps.
  { unfold caps_ratio. by rewrite (preprocess_text_no_upper text Htext). }
  split; [rewrite Hcaps; ring|].
  unfold analyze_emotional_intensity.
  rewrite PyFacts.min_Qmin, Hcaps. apply Q.min_compat; [ring|done].
Qed.

Lemma caps_term_zero_on_ascii_witness :
  caps_ratio (U := Excerpt.unicode)
    (preprocess_text (U := Excerpt.unicode) (Py.lit "I'm SO Happy!")) * 0.2
  == 0.
Proof.
  refine (proj1 (caps_term_zero_on_ascii (U := Excerpt.unicode)
                   (Py.lit "I'm SO Happy!") _)).
  apply (bool_decide_unpack _). by vm_compute.
Defined.


(** * Further properties of the analyzer *)

(** ** The intensity scorer *)

Lemma ratio_nonneg (a b : nat) : 0 <= Py.of_nat a / Py.of_nat (Nat.max b 1).
Proof.
  apply div_nonneg; [apply PyFacts.of_nat_nonneg | apply PyFacts.of_nat_pos; lia].
Qed.

Lemma analyze_emotional_intensity_range_aux `{U : Unicode} (text : list N) :
  0 <= analyze_emotional_intensity text
  ∧ analyze_emotional_intensity text <= 1.
Proof.
  unfold analyze_emotional_intensity, caps_ratio.
  match goal with |- context [Py.min ?s 1.0] => set (score := s) end.
  split.
  - apply PyFacts.min_glb; [|lra]. unfold score.
    pose proof (ratio_nonneg (intensity_count (Py.split text))
                  (length (Py.split text))).
    pose proof (ratio_nonneg (Py.count 33%N text)
                  (length (Py.split_on 46%N text))).
    pose proof (ratio_nonneg (length (List.filter isupper text)) (length text)).
    lra.
  - pose proof (PyFacts.min_le_r score 1.0). lra.
Qed.

(** X1.  The intensity score of every text lies in [0.0, 1.0]: the three
    terms are non-negative and the sum is capped at 1.0. *)
Theorem analyze_emotional_intensity_bounded `{U : Unicode} (text : list N) :
  0 <= analyze_emotional_intensity text
  ∧ analyze_emotional_intensity text <= 1.
Proof. apply analyze_emotional_intensity_range_aux. Qed.

(** ** Reported score and label *)

Lemma round_half_even_ge (a : Z) (x : Q) :
  inject_Z a <= x → (a ≤ Py.round_half_even x)%Z.
Proof.
  intros Ha.
  assert (a ≤ Qfloor x)%Z by (rewrite <- (Qfloor_Z a); by apply Qfloor_resp_le).
  destruct (round_half_even_floor x) as [->|[-> _]]; lia.
Qed.

Lemma round_half_even_le (b : Z) (x : Q) :
  x <= inject_Z b → (Py.round_half_even x ≤ b)%Z.
Proof.
  intros Hb.
  assert (Qfloor x ≤ b)%Z by (rewrite <- (Qfloor_Z b); by apply Qfloor_resp_le).
  destruct (round_half_even_floor x) as [->|[-> Hlt]]; [lia|].
  assert (inject_Z (Qfloor x) < inject_Z b) as Hs by lra.
  rewrite <- Zlt_Qlt in Hs. lia.
Qed.

(** Rounding to three decimals never crosses a multiple of 1/1000. *)
Lemma round3_ge (k : Z) (x : Q) :
  inject_Z k / 1000 <= x → inject_Z k / 1000 <= Py.round3 x.
Proof.
  intros Hk. unfold Py.round3.
  assert (inject_Z k / 1000 * 1000 == inject_Z k) as Hq by field.
  assert (inject_Z k <= x * 1000) as Hk' by (rewrite <- Hq; lra).
  apply round_half_even_ge in Hk'. rewrite Zle_Qle in Hk'.
  apply Qle_shift_div_l; [lra|]. by rewrite Hq.
Qed.

Lemma round3_le (k : Z) (x : Q) :
  x <= inject_Z k / 1000 → Py.round3 x <= inject_Z k / 1000.
Proof.
  intros Hk. unfold Py.round3.
  assert (inject_Z k / 1000 * 1000 == inject_Z k) as Hq by field.
  assert (x * 1000 <= inject_Z k) as Hk' by (rewrite <- Hq; lra).
  apply round_half_even_le in Hk'. rewrite Zle_Qle in Hk'.
  apply Qle_shift_div_r; [lra|]. by rewrite Hq.
Qed.

(** X3.  The label never contradicts the reported score: a positive result
    has [compound_score >= 0.15], a negative one [compound_score <= -0.15],
    and a neutral one has its score in [-0.15, 0.15] (the label is taken
    before the score is rounded, so both ends can be reached). *)
Theorem analyze_label_agrees_with_score `{U : Unicode}
    (textblob_sentiment : list N → Q * Q) (self : SentimentAnalyzer)
    (text : list N) :
  match sentiment_label (analyze textblob_sentiment self text) with
  | positive => 0.15 <= compound_score (analyze textblob_sentiment self text)
  | negative => compound_score (analyze textblob_sentiment self text) <= -0.15
  | neutral =>
      -0.15 <= compound_score (analyze textblob_sentiment self text)
      ∧ compound_score (analyze textblob_sentiment self text) <= 0.15
  end.
Proof.
  unfold analyze, analyze_traced.
  destruct (bool_decide (text = []) || bool_decide (Py.strip text = [])).
  { cbn. split; lra. }
  cbn [mbind traced_bind invoke mret traced_ret fst snd compound_score
       sentiment_label].
  match goal with |- context [classify_sentiment ?c] => set (combined := c) end.
  pose proof (classify_positive_iff combined) as Hpos.
  pose proof (classify_negative_iff combined) as Hneg.
  assert (0.15 == inject_Z 150 / 1000) as E1 by reflexivity.
  assert (-0.15 == inject_Z (-150) / 1000) as E2 by reflexivity.
  destruct (classify_sentiment combined) eqn:Hlabel.
  - rewrite E1. apply round3_ge. rewrite <- E1. by apply Hpos.
  - assert (¬ 0.15 <= combined) as Hp by (intros Hle; by apply Hpos in Hle).
    assert (¬ combined <= -0.15) as Hn by (intros Hle; by apply Hneg in Hle).
    split.
    + rewrite E2. apply round3_ge. rewrite <- E2. lra.
    + rewrite E1. apply round3_le. rewrite <- E1. lra.
  - rewrite E2. apply round3_le. rewrite <- E2. by apply Hneg.
Qed.

(** ** Which texts are blank *)

Lemma lstrip_nil (s : list N) :
  Py.lstrip s = [] → Forall (λ c, Py.isspace c = true) s.
Proof.
  induction s as [|c s IH]; [constructor|]. cbn.
  destruct (Py.isspace c) eqn:Hc; [|done]. intros Hs. by constructor; [|apply IH].
Qed.

Lemma lstrip_head (s : list N) (c : N) (rest : list N) :
  Py.lstrip s = c :: rest → Py.isspace c = false.
Proof.
  induction s as [|d s IH]; [done|]. cbn.
  destruct (Py.isspace d) eqn:Hd; [done|]. by intros [= <- _].
Qed.

Lemma strip_nil (s : list N) :
  Py.strip s = [] → Forall (λ c, Py.isspace c = true) s.
Proof.
  unfold Py.strip, Py.rstrip. intros Hs.
  apply (f_equal reverse) in Hs. rewrite reverse_involutive in Hs.
  apply lstrip_nil in Hs. rewrite Forall_reverse in Hs.
  apply lstrip_nil. destruct (Py.lstrip s) as [|c rest] eqn:Hl; [done|].
  apply lstrip_head in Hl. apply Forall_cons_1 in Hs as [Hc _]. congruence.
Qed.

Lemma forallb_Forall {A} (f : A → bool) (l : list A) :
  forallb f l = true ↔ Forall (λ x, f x = true) l.
Proof.
  induction l as [|x l IH]; cbn; [by split; [constructor|]|].
  rewrite andb_true_iff, Forall_cons, IH. done.
Qed.

(** The guard of [analyze] holds exactly for the texts made of white space. *)
Lemma analyze_guard (text : list N) :
  bool_decide (text = []) || bool_decide (Py.strip text = [])
  = forallb Py.isspace text.
Proof.
  destruct (forallb Py.isspace text) eqn:Hblank.
  - apply forallb_Forall, strip_blank in Hblank.
    rewrite Hblank. by destruct (bool_decide (text = [])).
  - apply orb_false_iff. split; apply bool_decide_eq_false; intros Hs.
    + by subst.
    + apply strip_nil, forallb_Forall in Hs. congruence.
Qed.

(** X6.  [analyze] calls no scoring method when the text is blank, and
    otherwise calls each of the four exactly once, in the order VADER,
    TextBlob, domain-weighted, intensity, each on the normalised text. *)
Theorem analyze_calls `{U : Unicode} (textblob_sentiment : list N → Q * Q)
    (self : SentimentAnalyzer) (text : list N) :
  (analyze_traced textblob_sentiment self text).2
  = if forallb Py.isspace text then []
    else [ VaderCall (preprocess_text text);
           TextBlobCall (preprocess_text text);
           PsychologyCall (preprocess_text text);
           IntensityCall (preprocess_text text) ].
Proof.
  unfold analyze_traced. rewrite analyze_guard.
  by destruct (forallb Py.isspace text).
Qed.

(** ** How low and how high the confidence can be *)

Lemma bool_filter_Forall {A} (f : A → bool) (l : list A) :
  Forall (λ x, f x = true) (List.filter f l).
Proof.
  induction l as [|x l IH]; cbn; [constructor|].
  destruct (f x) eqn:E; [by constructor | done].
Qed.

Lemma total_lower_bound (a : Q) (xs : list Q) :
  Forall (λ x, a <= x) xs → a * Py.of_nat (length xs) <= Spec.total xs.
Proof.
  unfold Spec.total, Py.of_nat.
  induction 1 as [|x xs Hx _ IH]; cbn [length foldr].
  { change (inject_Z (Z.of_nat 0)) with 0. lra. }
  rewrite Nat2Z.inj_succ, <- Z.add_1_r, inject_Z_plus.
  change (inject_Z 1) with 1. lra.
Qed.

Lemma calculate_confidence_floor (vs : VaderScores) (t p : Q) :
  0.248 < calculate_confidence vs t p.
Proof.
  unfold calculate_confidence.
  set (non_zero_scores := List.filter _ _).
  destruct (length non_zero_scores <? 2)%nat eqn:E; [reflexivity|].
  apply Nat.ltb_ge in E.
  set (len := Py.of_nat (length non_zero_scores)).
  assert (2 <= len) as Hlen.
  { change 2 with (Py.of_nat 2). by apply PyFacts.of_nat_le. }
  match goal with |- context [inject_Z ?m / len] => set (max_agreement := m) end.
  assert (len <= 3 * inject_Z max_agreement) as Hmax.
  { unfold len, Py.of_nat. change 3 with (inject_Z 3).
    rewrite <- inject_Z_mult, <- Zle_Qle. unfold max_agreement. lia. }
  assert (0.05 * len <= Py.sum (Qabs <$> non_zero_scores)) as Hsum.
  { rewrite sum_total. unfold len. rewrite <- (length_fmap Qabs).
    apply total_lower_bound, Forall_fmap.
    eapply Forall_impl; [apply bool_filter_Forall|].
    intros s Hs. apply PyFacts.lt_true in Hs. by apply Qlt_le_weak. }
  assert ((1 # 3) <= inject_Z max_agreement / len) as Hratio
    by (apply Qle_shift_div_l; lra).
  assert (0.05 <= Py.sum (Qabs <$> non_zero_scores) / len) as Havg
    by (apply Qle_shift_div_l; lra).
  match goal with |- _ < Py.min ?c _ =>
    assert (0.248 < c) as Hc by lra; unfold Py.min; destruct (Py.lt 1.0 c)
  end; [reflexivity | exact Hc].
Qed.

(** X4.  The reported confidence is 0.0 for a blank text and at least 0.248
    for every other text, so a confidence of 0.0 marks exactly the entries
    without words. *)
Theorem analyze_confidence_floor `{U : Unicode}
    (textblob_sentiment : list N → Q * Q) (self : SentimentAnalyzer)
    (text : list N) :
  if forallb Py.isspace text
  then confidence (analyze textblob_sentiment self text) = 0.0
  else 0.248 <= confidence (analyze textblob_sentiment self text).
Proof.
  unfold analyze, analyze_traced. rewrite analyze_guard.
  destruct (forallb Py.isspace text); [done|].
  cbn [mbind traced_bind invoke mret traced_ret fst snd confidence].
  assert (0.248 == inject_Z 248 / 1000) as -> by reflexivity.
  apply round3_ge.
  assert (inject_Z 248 / 1000 == 0.248) as -> by reflexivity.
  apply Qlt_le_weak, calculate_confidence_floor.
Qed.

Lemma confidence_of_three (vs : VaderScores) (t p : Q) (positive_side : bool) :
  Py.lt 0.05 (Qabs (compound vs)) = true →
  Py.lt 0.05 (Qabs t) = true →
  Py.lt 0.05 (Qabs p) = true →
  Py.lt 0.1 (compound vs) = positive_side → Py.lt 0.1 t = positive_side →
  Py.lt 0.1 p = positive_side →
  Py.lt (compound vs) (-0.1) = negb positive_side →
  Py.lt t (-0.1) = negb positive_side → Py.lt p (-0.1) = negb positive_side →
  calculate_confidence vs t p
  == Qmin (0.7 + (Qabs (compound vs) + Qabs t + Qabs p) / 3 * 0.3) 1.
Proof.
  intros Hc Ht Hp Hc1 Ht1 Hp1 Hc2 Ht2 Hp2. unfold calculate_confidence.
  cbn [List.filter]. rewrite Hc, Ht, Hp. cbn [List.filter].
  rewrite Hc1, Ht1, Hp1, Hc2, Ht2, Hp2.
  destruct positive_side; cbn [negb length Nat.ltb Nat.leb];
    rewrite PyFacts.min_Qmin; (apply Q.min_compat; [|reflexivity]);
    unfold Py.sum, Py.of_nat; cbn [fmap list_fmap fold_left length];
    match goal with |- context [inject_Z ?m / inject_Z ?n] =>
      change (inject_Z m) with 3; change (inject_Z n) with 3
    end; field.
Qed.

(** X5.  When the three scores agree on the direction, all above 0.1 or
    all below -0.1, the confidence is 0.7 plus 0.3 times their mean absolute
    value, capped at 1.0, and so exceeds 0.72 (it is 0.73 when the three
    scores are at the threshold). *)
Theorem calculate_confidence_unanimous (vader_scores : VaderScores)
    (textblob_polarity psych_score : Q) :
  (0.1 < compound vader_scores ∧ 0.1 < textblob_polarity ∧ 0.1 < psych_score)
  ∨ (compound vader_scores < -0.1 ∧ textblob_polarity < -0.1
     ∧ psych_score < -0.1) →
  calculate_confidence vader_scores textblob_polarity psych_score
  == Qmin
       (0.7
        + (Qabs (compound vader_scores) + Qabs textblob_polarity
           + Qabs psych_score) / 3 * 0.3)
       1
  ∧ 0.72 < calculate_confidence vader_scores textblob_polarity psych_score.
Proof.
  intros Hagree.
  set (c := compound vader_scores) in *.
  set (t := textblob_polarity) in *. set (p := psych_score) in *.
  assert (0.1 < Qabs c ∧ 0.1 < Qabs t ∧ 0.1 < Qabs p) as (Hc & Ht & Hp).
  { destruct Hagree as [(H1 & H2 & H3)|(H1 & H2 & H3)].
    - rewrite !Qabs_pos by lra. done.
    - rewrite !Qabs_neg by lra. split_and!; lra. }
  assert (calculate_confidence vader_scores t p
          == Qmin (0.7 + (Qabs c + Qabs t + Qabs p) / 3 * 0.3) 1) as Heq.
  { destruct Hagree as [(H1 & H2 & H3)|(H1 & H2 & H3)].
    - apply (confidence_of_three _ _ _ true);
        first [apply PyFacts.lt_true | apply PyFacts.lt_false]; fold c; lra.
    - apply (confidence_of_three _ _ _ false);
        first [apply PyFacts.lt_true | apply PyFacts.lt_false]; fold c; lra. }
  split; [exact Heq|]. rewrite Heq.
  apply Q.min_glb_lt; [|reflexivity].
  assert (0.1 < (Qabs c + Qabs t + Qabs p) / 3) by (apply Qlt_shift_div_l; lra).
  lra.
Qed.

Lemma calculate_confidence_unanimous_witness :
  0.72 < calculate_confidence
           {| compound := 0.8; pos := 0.6; neu := 0.4; neg := 0.0 |} 0.5 0.46.
Proof.
  refine (proj2 (calculate_confidence_unanimous
                   {| compound := 0.8; pos := 0.6; neu := 0.4; neg := 0.0 |}
                   0.5 0.46 _)).
  left. by vm_compute.
Defined.

(** ** The range of the domain-weighted score *)

Section DomainRange.
Variable polarity_scores : list N → VaderScores.

Let self := init polarity_scores.

Lemma positive_weights_range :
  map_Forall (λ _ w, 0 < w ∧ w <= 2.3) (positive_psychology_words self).
Proof.
  apply (dict_Forall (λ w, 0 < w ∧ w <= 2.3)).
  repeat (constructor; [by split; vm_compute|]). constructor.
Qed.

Lemma negative_weights_range :
  map_Forall (λ _ w, -2.8 <= w ∧ w < 0) (negative_psychology_words self).
Proof.
  apply (dict_Forall (λ w, -2.8 <= w ∧ w < 0)).
  repeat (constructor; [by split; vm_compute|]). constructor.
Qed.

Lemma modifiers_range :
  map_Forall (λ _ m, 0.6 <= m ∧ m <= 1.5) (intensity_modifiers self).
Proof.
  apply (dict_Forall (λ m, 0.6 <= m ∧ m <= 1.5)).
  repeat (constructor; [by split; vm_compute|]). constructor.
Qed.

Lemma weight_range (token : list N) :
  -2.8 <= Spec.weight self token ∧ Spec.weight self token <= 2.3.
Proof.
  unfold Spec.weight.
  destruct (positive_psychology_words self !! token) as [w|] eqn:Hp.
  { apply positive_weights_range in Hp. cbn in Hp. lra. }
  destruct (negative_psychology_words self !! token) as [w|] eqn:Hn.
  { apply negative_weights_range in Hn. cbn in Hn. lra. }
  lra.
Qed.

(** A modifier is not a domain word: its own weight is 0. *)
Lemma modifier_weight (token : list N) (modifier : Q) :
  intensity_modifiers self !! token = Some modifier →
  Spec.weight self token = 0.
Proof.
  unfold Spec.weight, self.
  cbn [init positive_psychology_words negative_psychology_words
       intensity_modifiers].
  intros Hm.
  assert (dict modifier_items ##ₘ dict positive_items) as Hp
    by (apply map_disjoint_dom_2, (bool_decide_unpack _); by vm_compute).
  assert (dict modifier_items ##ₘ dict negative_items) as Hn
    by (apply map_disjoint_dom_2, (bool_decide_unpack _); by vm_compute).
  rewrite (map_disjoint_Some_l _ _ _ _ Hp Hm),
    (map_disjoint_Some_l _ _ _ _ Hn Hm). done.
Qed.

Lemma of_nat_S (n : nat) : Py.of_nat (S n) == Py.of_nat n + 1.
Proof.
  unfold Py.of_nat. rewrite Nat2Z.inj_succ, <- Z.add_1_r, inject_Z_plus.
  reflexivity.
Qed.

(** The sum of the contributions of [rest] stays within 2.3 and -2.8 per
    token, plus the excess a modifier just before [rest] can add to the
    first token. *)
Lemma contributions_range (previous : option (list N)) (rest : list (list N)) :
  let excess (bound : Q) :=
    match previous ≫= (λ p, intensity_modifiers self !! p) with
    | Some _ => bound
    | None => 0
    end in
  - (2.8 * Py.of_nat (length rest)) - excess 1.4
  <= Spec.total (Spec.contributions self previous rest)
  ∧ Spec.total (Spec.contributions self previous rest)
    <= 2.3 * Py.of_nat (length rest) + excess 1.15.
Proof.
  revert previous. induction rest as [|token rest IH]; intros previous excess.
  { unfold excess. cbn. change (Py.of_nat 0) with 0.
    destruct (previous ≫= _); lra. }
  cbn [Spec.contributions Spec.total foldr length].
  fold (Spec.total (Spec.contributions self (Some token) rest)).
  rewrite of_nat_S.
  pose proof (PyFacts.of_nat_nonneg (length rest)) as Hlen.
  specialize (IH (Some token)). cbn [mbind option_bind] in IH.
  destruct (weight_range token) as [Hw1 Hw2].
  unfold excess.
  destruct (intensity_modifiers self !! token) as [m'|] eqn:Htoken.
  - rewrite (modifier_weight _ _ Htoken) in *.
    destruct (previous ≫= _); lra.
  - destruct (previous ≫= _) as [m|] eqn:Hprev; [|lra].
    assert (0.6 <= m ∧ m <= 1.5) as [Hm1 Hm2].
    { destruct previous as [p|]; [|done].
      by apply modifiers_range in Hprev. }
    nra.
Qed.

End DomainRange.

Lemma psychology_weighted_analysis_range_aux
    (polarity_scores : list N → VaderScores) (text : list N) :
  -2.8 <= psychology_weighted_analysis (init polarity_scores) text
  ∧ psychology_weighted_analysis (init polarity_scores) text <= 2.3.
Proof.
  unfold psychology_weighted_analysis.
  destruct (length (Py.split text) =? 0)%nat eqn:Hlen; [lra|].
  apply Nat.eqb_neq in Hlen.
  assert (0 < Py.of_nat (length (Py.split text))) as Hpos
    by (apply PyFacts.of_nat_pos; lia).
  rewrite total_score_contributions.
  destruct (contributions_range polarity_scores None (Py.split text))
    as [Hlo Hhi].
  cbn [mbind option_bind] in Hlo, Hhi.
  split; [apply Qle_shift_div_l | apply Qle_shift_div_r]; lra.
Qed.

(** X2.  The domain-weighted score of every text lies strictly between
    -2.9 and 2.4.  The average of the exact contributions stays within the
    weights of ['hopeless'] (-2.8) and ['fulfilled'] (2.3): a modifier can
    raise a word's contribution above them, but it is a token of weight 0
    itself.  The margin of 0.1 leaves room for the rounding of the sum. *)
Theorem psychology_weighted_analysis_range
    (polarity_scores : list N → VaderScores) (text : list N) :
  -2.9 < psychology_weighted_analysis (init polarity_scores) text
  ∧ psychology_weighted_analysis (init polarity_scores) text < 2.4.
Proof.
  destruct (psychology_weighted_analysis_range_aux polarity_scores text)
    as [Hlo Hhi].
  split; lra.
Qed.

(** ** The summary *)

Section SummaryFacts.
Context `{U : Unicode}.
Variable textblob_sentiment : list N → Q * Q.
Variable self : SentimentAnalyzer.

Lemma analyze_of_blank (text : list N) :
  Forall (λ c, Py.isspace c = true) text →
  analyze textblob_sentiment self text = _empty_result.
Proof.
  intros Hblank. apply forallb_Forall in Hblank.
  unfold analyze, analyze_traced. by rewrite analyze_guard, Hblank.
Qed.

Lemma analyze_of_text (text : list N) :
  forallb Py.isspace text = false →
  emotional_intensity (analyze textblob_sentiment self text)
  = Py.round3 (analyze_emotional_intensity (preprocess_text text)).
Proof.
  intros Hblank. unfold analyze, analyze_traced.
  by rewrite analyze_guard, Hblank.
Qed.

(** What [preprocess_text] does before lower-casing keeps every character
    inside a class that has the space and the letters of the expansions. *)
Lemma lstrip_keeps (P : N → Prop) (s : list N) :
  Forall P s → Forall P (Py.lstrip s).
Proof.
  induction 1 as [|c s Hc Hs IH]; cbn; [constructor|].
  destruct (Py.isspace c); [done | by constructor].
Qed.

Lemma collapse_whitespace_keeps (P : N → Prop) (in_run : bool) (s : list N) :
  P 32%N → Forall P s → Forall P (collapse_whitespace in_run s).
Proof.
  intros Hspace Hs. revert in_run.
  induction Hs as [|c s Hc Hs IH]; intros in_run; cbn; [constructor|].
  destruct (Py.isspace c); [destruct in_run|]; try constructor; done.
Qed.

Lemma sub_word_from_keeps (P : N → Prop) (pat repl : list N)
    (prev : option N) (skip : nat) (s : list N) :
  Forall P repl → Forall P s → Forall P (sub_word_from pat repl prev skip s).
Proof.
  intros Hrepl Hs. revert prev skip.
  induction Hs as [|c s Hc Hs IH]; intros prev skip; cbn [sub_word_from];
    [constructor|].
  destruct skip; [|done].
  destruct (match_here pat prev (c :: s)); [by apply Forall_app | by constructor].
Qed.

Lemma before_lower_keeps (P : N → Prop) (text : list N) :
  P 32%N →
  Forall (λ item : string * string, Forall P (Py.lit item.2)) contractions →
  Forall P text →
  Forall P (expand_contractions (collapse_whitespace false (Py.strip text))).
Proof.
  intros Hspace Hitems Htext.
  assert (Forall P (collapse_whitespace false (Py.strip text))) as Hclean.
  { apply collapse_whitespace_keeps; [done|]. unfold Py.strip, Py.rstrip.
    by apply Forall_reverse, lstrip_keeps, Forall_reverse, lstrip_keeps. }
  unfold expand_contractions. revert Hclean.
  generalize (collapse_whitespace false (Py.strip text)).
  induction Hitems as [|[contraction expansion] items Hitem _ IH];
    intros s Hs; cbn [fold_left]; [done|].
  apply IH. by apply sub_word_from_keeps.
Qed.

Lemma preprocess_text_no_exclamation (text : list N) :
  Forall is_ascii text → 33%N ∉ text →
  Py.count 33%N (preprocess_text text) = 0%nat.
Proof.
  intros Hascii Hexcl. unfold preprocess_text.
  pose proof (before_lower_keeps (λ c, is_ascii c ∧ c ≠ 33%N) text) as Hkeep.
  set (s := expand_contractions _) in *.
  assert (Forall (λ c, is_ascii c ∧ c ≠ 33%N) s) as Hs.
  { apply Hkeep.
    - by compute.
    - apply Forall_forall. intros item Hitem. apply Forall_and. split.
      + revert item Hitem. apply Forall_forall, expansions_ascii.
      + revert item Hitem. apply Forall_forall, (bool_decide_unpack _).
        by vm_compute.
    - apply Forall_and. split; [done|].
      apply Forall_forall. by intros c Hc ->. }
  apply Forall_and in Hs as [Hs1 Hs2].
  rewrite (lower_ascii s Hs1). unfold Py.count. clear Hkeep.
  induction s as [|c s IH]; [done|].
  apply Forall_cons_1 in Hs1 as [Hc1 Hs1]. apply Forall_cons_1 in Hs2 as [Hc2 Hs2].
  cbn [fmap list_fmap List.filter]. fold (fmap ascii_lower s).
  replace (ascii_lower c =? 33)%N with false; [by apply IH|].
  symmetry. apply N.eqb_neq. unfold ascii_lower, ascii_isupper.
  destruct (65 <=? c)%N eqn:E; cbn [andb]; [|done].
  apply N.leb_le in E. destruct (c <=? 90)%N; lia.
Qed.

Lemma intensity_without_marks (text : list N) :
  Forall is_ascii text → 33%N ∉ text →
  analyze_emotional_intensity (preprocess_text text) <= 0.5.
Proof.
  intros Hascii Hexcl. unfold analyze_emotional_intensity, caps_ratio.
  rewrite (preprocess_text_no_exclamation _ Hascii Hexcl),
    (preprocess_text_no_upper _ Hascii).
  set (words := Py.split (preprocess_text text)).
  assert (Py.of_nat (intensity_count words) / Py.of_nat (Nat.max (length words) 1)
          <= 1) as Hratio.
  { apply Qle_shift_div_r; [apply PyFacts.of_nat_pos; lia|].
    rewrite Qmult_1_l. apply PyFacts.of_nat_le.
    unfold intensity_count. pose proof (length_filter (λ word, word ∈ intensity_indicators) words). lia. }
  match goal with |- Py.min ?s _ <= _ =>
    pose proof (PyFacts.min_le_l s 1.0); assert (s <= 0.5)
  end; [|lra].
  cbn [length]. change (Py.of_nat 0) with 0.
  unfold Qdiv at 2 3. rewrite !Qmult_0_l. lra.
Qed.

End SummaryFacts.

(** X7.  For a blank text the summary reads sentiment ['Neutral'],
    ['uncertain'], ['calm'], with the sentence built from them, and carries
    the fixed neutral result as its detailed scores. *)
Theorem get_sentiment_summary_blank `{U : Unicode}
    (textblob_sentiment : list N → Q * Q) (self : SentimentAnalyzer)
    (text : list N) :
  Forall (λ c, Py.isspace c = true) text →
  get_sentiment_summary textblob_sentiment self text
  = {| sentiment := Py.lit "Neutral";
       confidence_description := Py.lit "uncertain";
       emotional_intensity_description := Py.lit "calm";
       summary :=
         Py.lit "neutral sentiment detected with uncertain analysis (calm tone)";
       detailed_scores := _empty_result |}.
Proof.
  intros Hblank. unfold get_sentiment_summary.
  rewrite (analyze_of_blank _ _ _ Hblank).
  cbn [sentiment_label confidence emotional_intensity _empty_result label_name].
  rewrite lower_ascii by (apply (bool_decide_unpack _); by vm_compute).
  by vm_compute.
Qed.

Lemma get_sentiment_summary_blank_witness :
  summary (get_sentiment_summary (U := Excerpt.unicode) Excerpt.no_sentiment
             (init Excerpt.no_opinion) (Py.lit "  "))
  = Py.lit "neutral sentiment detected with uncertain analysis (calm tone)".
Proof.
  rewrite (get_sentiment_summary_blank (U := Excerpt.unicode)
             Excerpt.no_sentiment (init Excerpt.no_opinion) (Py.lit "  ")).
  - reflexivity.
  - repeat constructor.
Defined.

(** X8.  An ASCII text without an exclamation mark has a reported intensity
    of at most 0.5 and is never summarised as ['highly emotional']: after
    normalisation only the share of intensity words is left to count. *)
Theorem get_sentiment_summary_without_marks `{U : Unicode}
    (textblob_sentiment : list N → Q * Q) (self : SentimentAnalyzer)
    (text : list N) :
  Forall is_ascii text → 33%N ∉ text →
  emotional_intensity (analyze textblob_sentiment self text) <= 0.5
  ∧ emotional_intensity_description
      (get_sentiment_summary textblob_sentiment self text)
    ≠ Py.lit "highly emotional".
Proof.
  intros Hascii Hexcl.
  assert (emotional_intensity (analyze textblob_sentiment self text) <= 0.5)
    as Hle.
  { destruct (forallb Py.isspace text) eqn:Hblank.
    - apply forallb_Forall in Hblank.
      by rewrite (analyze_of_blank _ _ _ Hblank).
    - rewrite (analyze_of_text _ _ _ Hblank).
      assert (0.5 == inject_Z 500 / 1000) as E by reflexivity.
      rewrite E. apply round3_le. rewrite <- E.
      by apply intensity_without_marks. }
  split; [exact Hle|].
  unfold get_sentiment_summary. cbn [emotional_intensity_description].
  replace (Py.lt 0.7 (emotional_intensity (analyze textblob_sentiment self text)))
    with false by (symmetry; apply PyFacts.lt_false; lra).
  by destruct (Py.lt 0.4 _).
Qed.

Lemma get_sentiment_summary_without_marks_witness :
  emotional_intensity
    (analyze (U := Excerpt.unicode) Excerpt.no_sentiment
       (init Excerpt.no_opinion) (Py.lit "Totally AMAZING day")) <= 0.5.
Proof.
  refine (proj1 (get_sentiment_summary_without_marks (U := Excerpt.unicode)
                   Excerpt.no_sentiment (init Excerpt.no_opinion)
                   (Py.lit "Totally AMAZING day") _ _)).
  - apply (bool_decide_unpack _). by vm_compute.
  - apply (bool_decide_unpack _). by vm_compute.
Defined.


(** * Properties of the web application *)

(** ** The journaling streak *)

Section Streak.
Import Models App.

Lemma insert_newest_first_perm (x : Entry) (l : list Entry) :
  insert_newest_first x l ≡ₚ x :: l.
Proof.
  induction l as [|y l IH]; cbn; [done|].
  destruct (datetime_lt (timestamp x) (timestamp y)); [|done].
  rewrite IH. apply Permutation_swap.
Qed.

Lemma sorted_newest_first_perm (entries : list Entry) :
  sorted_newest_first entries ≡ₚ entries.
Proof.
  induction entries as [|x l IH]; cbn; [done|].
  fold (sorted_newest_first l). by rewrite insert_newest_first_perm, IH.
Qed.

Lemma datetime_lt_day (a b : datetime) :
  (if datetime_lt a b then day a ≤ day b else day b ≤ day a)%Z.
Proof.
  unfold datetime_lt.
  destruct (day a <? day b)%Z eqn:E1; cbn [orb]; [apply Z.ltb_lt in E1; lia|].
  apply Z.ltb_ge in E1.
  destruct (day a =? day b)%Z eqn:E2; cbn [andb]; [|done].
  apply Z.eqb_eq in E2. destruct (_ <? _)%Z; lia.
Qed.

Lemma insert_newest_first_sorted (x : Entry) (l : list Entry) :
  StronglySorted not_later l → StronglySorted not_later (insert_newest_first x l).
Proof.
  induction 1 as [|y l Hl IH Hy]; cbn; [repeat constructor|].
  pose proof (datetime_lt_day (timestamp x) (timestamp y)) as Hxy.
  destruct (datetime_lt (timestamp x) (timestamp y)).
  - constructor; [done|].
    rewrite insert_newest_first_perm. by constructor.
  - constructor; [by constructor|].
    constructor; [done|].
    eapply Forall_impl; [exact Hy|]. unfold not_later, date_of in *.
    intros z Hz. lia.
Qed.

Lemma sorted_newest_first_sorted (entries : list Entry) :
  StronglySorted not_later (sorted_newest_first entries).
Proof.
  induction entries as [|x l IH]; cbn; [constructor|].
  by apply insert_newest_first_sorted.
Qed.

(** The loop of [unique_dates], started from any strictly decreasing list
    of dates that are not earlier than those still to come. *)
Lemma unique_dates_from (l : list Entry) (acc : list Z) :
  StronglySorted not_later l →
  StronglySorted Z.gt acc →
  Forall (λ a, Forall (λ e, date_of e ≤ a)%Z l) acc →
  let result :=
    fold_left
      (λ entry_dates entry,
         let date := day (timestamp entry) in
         if bool_decide (date ∈ entry_dates) then entry_dates
         else entry_dates ++ [date])
      l acc in
  StronglySorted Z.gt result
  ∧ (∀ d, d ∈ result ↔ d ∈ acc ∨ ∃ e, e ∈ l ∧ date_of e = d)
  ∧ (length result ≤ length acc + length l)%nat
  ∧ acc `prefix_of` result.
Proof.
  cbv zeta. intros Hl. revert acc.
  induction Hl as [|e l Hl IH He]; intros acc Hacc Hbound; cbn [fold_left].
  { split_and!; [done| |lia|done].
    intros d. split; [by left|]. intros [?|(x & Hx & _)]; [done|].
    by apply elem_of_nil in Hx. }
  pose proof (proj1 (Forall_forall _ _) Hbound) as Hbound'.
  assert (Forall (λ a, date_of e ≤ a)%Z acc) as Hacc_e.
  { apply Forall_forall. intros a Ha.
    by apply Hbound', Forall_cons_1 in Ha as [? _]. }
  assert (Forall (λ a, Forall (λ e', date_of e' ≤ a)%Z l) acc) as Hacc_l.
  { apply Forall_forall. intros a Ha.
    by apply Hbound', Forall_cons_1 in Ha as [_ ?]. }
  fold (date_of e). destruct (bool_decide (date_of e ∈ acc)) eqn:Hin.
  - apply bool_decide_eq_true in Hin.
    destruct (IH acc Hacc Hacc_l) as (Hs & Hm & Hlen & Hpre).
    split_and!; [done| |cbn [length]; lia|done].
    intros d. rewrite Hm. split.
    + intros [?|(x & Hx & Hd)]; [by left|].
      right. exists x. split; [by right|done].
    + intros [?|(x & Hx & Hd)]; [by left|].
      apply elem_of_cons in Hx as [-> |Hx]; [left; by subst|].
      right. by exists x.
  - apply bool_decide_eq_false in Hin.
    destruct (IH (acc ++ [date_of e])) as (Hs & Hm & Hlen & Hpre).
    + apply StronglySorted_app_2; [|done|repeat constructor].
      intros a b Ha Hb%list_elem_of_singleton. subst b.
      assert (a ≠ date_of e) by (by intros ->).
      pose proof (proj1 (Forall_forall _ _) Hacc_e a Ha) as Hle.
      cbn in Hle. lia.
    + apply Forall_app. split; [done|]. repeat constructor.
      eapply Forall_impl; [exact He|]. by intros z Hz.
    + split_and!; [done| |rewrite length_app in Hlen; cbn [length] in *; lia|].
      * intros d. rewrite Hm, elem_of_app, list_elem_of_singleton. split.
        -- intros [[?| ->]|(x & Hx & Hd)]; [by left| |].
           ++ right. exists e. split; [by left|done].
           ++ right. exists x. split; [by right|done].
        -- intros [?|(x & Hx & Hd)]; [by left; left|].
           apply elem_of_cons in Hx as [-> |Hx]; [left; right; by subst|].
           right. by exists x.
      * etrans; [|exact Hpre]. by apply prefix_app_r.
Qed.

End Streak.

Section StreakRun.
Import Models App.

Lemma count_consecutive_run (dates : list Z) (streak current : Z) :
  StronglySorted Z.gt dates → Forall (λ d, d ≤ current)%Z dates →
  ∃ j : Z,
    (0 ≤ j ≤ Z.of_nat (length dates))%Z
    ∧ count_consecutive streak current dates = (streak + j)%Z
    ∧ (∀ i, 0 ≤ i < j → current - i ∈ dates)%Z
    ∧ (current - j)%Z ∉ dates.
Proof.
  intros Hsorted. revert streak current.
  induction Hsorted as [|d rest Hrest IH Hd]; intros streak current Hle.
  { exists 0%Z. split; [cbn; lia|]. split; [cbn; lia|].
    split; [intros; lia | apply not_elem_of_nil]. }
  apply Forall_cons_1 in Hle as [Hdc Hle]. cbn [count_consecutive].
  destruct (d =? current)%Z eqn:E.
  - apply Z.eqb_eq in E. subst d.
    destruct (IH (streak + 1)%Z (current - 1)%Z) as (j & Hj & Hcount & Hrun & Hend).
    { eapply Forall_impl; [exact Hd|]. intros z Hz. cbn in Hz. lia. }
    exists (j + 1)%Z. split; [cbn [length]; lia|].
    split; [rewrite Hcount; lia|]. split.
    + intros i Hi. destruct (decide (i = 0%Z)) as [->|Hi0].
      * rewrite Z.sub_0_r. by left.
      * right. replace (current - i)%Z with (current - 1 - (i - 1))%Z by lia.
        apply Hrun. lia.
    + replace (current - (j + 1))%Z with (current - 1 - j)%Z by lia.
      apply not_elem_of_cons. split; [lia|done].
  - apply Z.eqb_neq in E. exists 0%Z. split; [cbn [length]; lia|].
    split; [lia|]. split.
    + intros; lia.
    + rewrite Z.sub_0_r. apply not_elem_of_cons. split; [done|].
      intros Hin. pose proof (proj1 (Forall_forall _ _) Hd _ Hin) as Hlt.
      cbn in Hlt. lia.
Qed.

(** The dates collected from the sorted entries: strictly decreasing, and
    exactly the dates that have an entry. *)
Lemma unique_dates_sorted (entries : list Entry) :
  StronglySorted Z.gt (unique_dates (sorted_newest_first entries))
  ∧ (∀ d, d ∈ unique_dates (sorted_newest_first entries) ↔ journaled entries d)
  ∧ (length (unique_dates (sorted_newest_first entries)) ≤ length entries)%nat.
Proof.
  destruct (unique_dates_from (sorted_newest_first entries) [])
    as (Hs & Hm & Hlen & _);
    [apply sorted_newest_first_sorted | constructor | constructor |].
  cbv zeta in *. fold (unique_dates (sorted_newest_first entries)) in *.
  split_and!; [done| |].
  - intros d. rewrite Hm. unfold journaled, date_of. split.
    + intros [Hnil|(e & He & Hd)]; [by apply elem_of_nil in Hnil|].
      exists e. split; [|done]. by rewrite <- (sorted_newest_first_perm entries).
    + intros (e & He & Hd). right. exists e. split; [|done].
      by rewrite (sorted_newest_first_perm entries).
  - pose proof (Permutation_length (sorted_newest_first_perm entries)).
    cbn [length] in Hlen. lia.
Qed.

(** Either the streak is 0 and the newest entry is older than yesterday (or
    dated in the future, or missing), or it counts a run of days that ends
    today or yesterday. *)
Lemma streak_cases (now : datetime) (entries : list Entry) :
  (calculate_journal_streak now entries = 0%Z
   ∧ ¬ journaled_lately now entries)
  ∨ (0 < calculate_journal_streak now entries
         ≤ Z.of_nat (length entries))%Z
    ∧ ∃ start, (start = day now ∨ start = day now - 1)%Z
        ∧ run_of_days entries start (calculate_journal_streak now entries).
Proof.
  destruct (unique_dates_sorted entries) as (Hsorted & Hmem & Hlen).
  unfold calculate_journal_streak.
  destruct entries as [|entry0 entries'] eqn:Hentries.
  { left. split; [done|]. intros [(d & (e & He & _) & _) _].
    by apply elem_of_nil in He. }
  rewrite <- Hentries in *. clear Hentries entry0 entries'.
  destruct (unique_dates (sorted_newest_first entries)) as [|first rest].
  { left. split; [done|]. intros [(d & Hd & _) _].
    apply Hmem in Hd. by apply elem_of_nil in Hd. }
  apply StronglySorted_inv in Hsorted as [Hrest Hfirst].
  assert (∀ d, journaled entries d → d ≤ first)%Z as Hmax.
  { intros d Hd%Hmem. apply elem_of_cons in Hd as [-> |Hd]; [lia|].
    pose proof (proj1 (Forall_forall _ _) Hfirst _ Hd) as Hlt. cbn in Hlt. lia. }
  assert (journaled entries first) as Hjfirst by (apply Hmem; by left).
  assert (∀ current,
            first = (current + 1)%Z →
            (0 < count_consecutive 1 current rest ≤ Z.of_nat (length entries))%Z
            ∧ run_of_days entries first (count_consecutive 1 current rest))
    as Hrun.
  { intros current ->.
    destruct (count_consecutive_run rest 1 current Hrest)
      as (j & Hj & -> & Hdays & Hend).
    { eapply Forall_impl; [exact Hfirst|]. intros z Hz. cbn in Hz. lia. }
    cbn [length] in Hlen. split; [lia|]. split_and!; [done| |].
    - intros i Hi. apply Hmem. destruct (decide (i = 0%Z)) as [-> |Hi0].
      + rewrite Z.sub_0_r. by left.
      + right. replace (current + 1 - i)%Z with (current - (i - 1))%Z by lia.
        apply Hdays. lia.
    - intros Hj'%Hmem. apply elem_of_cons in Hj' as [Heq|Hin]; [lia|].
      apply Hend. by replace (current - j)%Z with (current + 1 - (1 + j))%Z by lia. }
  destruct (first =? day now)%Z eqn:E1.
  { apply Z.eqb_eq in E1. right.
    destruct (Hrun (day now - 1)%Z) as [Hk Hdays]; [lia|].
    split; [done|]. exists first. split; [by left|done]. }
  destruct (first =? day now - 1)%Z eqn:E2.
  { apply Z.eqb_eq in E2. right.
    destruct (Hrun (day now - 2)%Z) as [Hk Hdays]; [lia|].
    split; [done|]. exists first. split; [by right|done]. }
  apply Z.eqb_neq in E1, E2. left. split; [done|].
  intros [(d & Hd & Hlate) Htoday].
  apply Hmax in Hd. apply Htoday in Hjfirst. lia.
Qed.

Lemma calculate_journal_streak_positive_aux (now : datetime)
    (entries : list Entry) :
  (0 ≤ calculate_journal_streak now entries)%Z
  ∧ ((0 < calculate_journal_streak now entries)%Z
     ↔ journaled_lately now entries).
Proof.
  destruct (streak_cases now entries) as [[H0 Hnot]|[Hk (start & Hstart & Hrun)]].
  - rewrite H0. split; [done|]. split; [lia|done].
  - split; [lia|]. split; [|lia]. intros _.
    destruct Hrun as (Hmax & Hdays & _).
    split.
    + exists start. split; [|lia].
      replace start with (start - 0)%Z by lia. apply Hdays. lia.
    + intros d Hd%Hmax. lia.
Qed.

End StreakRun.

(** X9.  The streak is positive exactly when the newest entry is dated
    today or yesterday: some entry is dated today or yesterday and none is
    dated after today.  Otherwise it is 0. *)
Theorem calculate_journal_streak_positive (now : Models.datetime)
    (entries : list Models.Entry) :
  (0 ≤ App.calculate_journal_streak now entries)%Z
  ∧ ((0 < App.calculate_journal_streak now entries)%Z
     ↔ App.journaled_lately now entries).
Proof. apply calculate_journal_streak_positive_aux. Qed.

(** X10.  A positive streak [k] counts a run of days: the run ends today or
    yesterday, each of its [k] days has an entry, the day before the run has
    none, and no entry is dated after its last day. *)
Theorem calculate_journal_streak_run (now : Models.datetime)
    (entries : list Models.Entry) :
  (0 < App.calculate_journal_streak now entries)%Z →
  ∃ start,
    (start = Models.day now ∨ start = Models.day now - 1)%Z
    ∧ App.run_of_days entries start (App.calculate_journal_streak now entries).
Proof.
  intros Hk.
  destruct (streak_cases now entries) as [[H0 _]|[_ Hrun]]; [lia|done].
Qed.

(** X12.  The streak is never more than the number of entries. *)
Theorem calculate_journal_streak_le_entries (now : Models.datetime)
    (entries : list Models.Entry) :
  (App.calculate_journal_streak now entries ≤ Z.of_nat (length entries))%Z.
Proof.
  destruct (streak_cases now entries) as [[H0 _]|[Hk _]]; lia.
Qed.

Lemma calculate_journal_streak_run_witness :
  ∃ start,
    (start = 100 ∨ start = 100 - 1)%Z
    ∧ App.run_of_days
        [App.entry_on 97 3 "neutral"; App.entry_on 99 4 "positive";
         App.entry_on 98 2 "negative"; App.entry_on 95 5 "positive";
         App.entry_on 99 1 "negative"]
        start 3.
Proof.
  apply (calculate_journal_streak_run (App.noon 100)
           [App.entry_on 97 3 "neutral"; App.entry_on 99 4 "positive";
            App.entry_on 98 2 "negative"; App.entry_on 95 5 "positive";
            App.entry_on 99 1 "negative"]).
  by vm_compute.
Defined.

Section StreakDates.
Import Models App.

Lemma run_of_days_unique (entries entries' : list Entry) (start start' k k' : Z) :
  (∀ d, journaled entries d ↔ journaled entries' d) →
  (0 < k)%Z → (0 < k')%Z →
  run_of_days entries start k → run_of_days entries' start' k' →
  k = k'.
Proof.
  intros Hsame Hk Hk' (Hmax & Hdays & Hend) (Hmax' & Hdays' & Hend').
  assert (journaled entries start) as Hs
    by (replace start with (start - 0)%Z by lia; apply Hdays; lia).
  assert (journaled entries' start') as Hs'
    by (replace start' with (start' - 0)%Z by lia; apply Hdays'; lia).
  assert (start = start') as <-.
  { apply Hsame, Hmax' in Hs. apply Hsame, Hmax in Hs'. lia. }
  destruct (Z.lt_trichotomy k k') as [Hlt|[Heq|Hgt]]; [|done|].
  - destruct Hend. apply Hsame, Hdays'. lia.
  - destruct Hend'. apply Hsame, Hdays. lia.
Qed.

End StreakDates.

(** X11.  The streak depends only on which dates have an entry: two lists of
    entries with the same dates, in any order and with any number of entries
    per day, have the same streak. *)
Theorem calculate_journal_streak_dates_only (now : Models.datetime)
    (entries entries' : list Models.Entry) :
  (∀ d, App.journaled entries d ↔ App.journaled entries' d) →
  App.calculate_journal_streak now entries
  = App.calculate_journal_streak now entries'.
Proof.
  intros Hsame.
  assert (App.journaled_lately now entries ↔ App.journaled_lately now entries')
    as Hlately.
  { unfold App.journaled_lately. split; intros [(d & Hd & Hle) Hmax].
    - split; [exists d; split; [by apply Hsame|done]|].
      intros d' Hd'. by apply Hmax, Hsame.
    - split; [exists d; split; [by apply Hsame|done]|].
      intros d' Hd'. by apply Hmax, Hsame. }
  pose proof (calculate_journal_streak_positive_aux now entries) as [_ Hpos].
  pose proof (calculate_journal_streak_positive_aux now entries') as [_ Hpos'].
  destruct (streak_cases now entries) as [[H0 Hnot]|[Hk (start & _ & Hrun)]],
    (streak_cases now entries') as [[H0' Hnot']|[Hk' (start' & _ & Hrun')]].
  - congruence.
  - destruct Hnot. apply Hlately, Hpos'. lia.
  - destruct Hnot'. apply Hlately, Hpos. lia.
  - eapply run_of_days_unique; [exact Hsame| | |exact Hrun|exact Hrun']; lia.
Qed.

Lemma calculate_journal_streak_dates_only_witness :
  App.calculate_journal_streak (App.noon 100)
    [App.entry_on 99 4 "positive"; App.entry_on 98 2 "negative"]
  = App.calculate_journal_streak (App.noon 100)
      [App.entry_on 98 5 "neutral"; App.entry_on 99 1 "neutral";
       App.entry_on 98 3 "positive"].
Proof.
  apply (calculate_journal_streak_dates_only (App.noon 100)).
  intros d. unfold App.journaled. split; intros (e & He & Hd).
  - apply elem_of_cons in He as [-> |He];
      [|apply elem_of_cons in He as [-> |He]; [|by apply elem_of_nil in He]].
    + exists (App.entry_on 99 1 "neutral"). split; [|done]. by right; left.
    + exists (App.entry_on 98 5 "neutral"). split; [|done]. by left.
  - apply elem_of_cons in He as [-> |He];
      [|apply elem_of_cons in He as [-> |He];
        [|apply elem_of_cons in He as [-> |He]; [|by apply elem_of_nil in He]]].
    + exists (App.entry_on 98 2 "negative"). split; [|done]. by right; left.
    + exists (App.entry_on 99 4 "positive"). split; [|done]. by left.
    + exists (App.entry_on 98 2 "negative"). split; [|done]. by right; left.
Defined.

(** ** The insights *)

Section InsightFacts.
Import Models App.
Variable float_sqrt : Q → Q.
Variable format_1f : Q → list N.

Lemma sum_moods_perm (xs ys : list Z) :
  xs ≡ₚ ys → ∀ a, fold_left Z.add xs a = fold_left Z.add ys a.
Proof.
  induction 1 as [|x xs ys _ IH|x y xs|xs ys zs _ IH1 _ IH2]; intros a; cbn.
  - done.
  - apply IH.
  - f_equal. lia.
  - by rewrite IH1.
Qed.

Lemma mean_perm (xs ys : list Z) : xs ≡ₚ ys → mean xs = mean ys.
Proof.
  intros Hperm. unfold mean.
  by rewrite (sum_moods_perm _ _ Hperm), (Permutation_length Hperm).
Qed.

(** With at most seven entries the recent entries are all the entries. *)
Lemma recent_mean_of_few (entries : list Entry) :
  (length entries ≤ 7)%nat →
  mean (mood_rating <$> take 7 (sorted_newest_first entries))
  = mean (mood_rating <$> entries).
Proof.
  intros Hlen. pose proof (sorted_newest_first_perm entries) as Hperm.
  rewrite take_ge by (rewrite (Permutation_length Hperm); lia).
  apply mean_perm. by rewrite Hperm.
Qed.

Lemma no_trend_when_equal (avg : Q) :
  Py.lt (avg + 0.5) avg = false ∧ Py.lt avg (avg - 0.5) = false.
Proof. split; apply PyFacts.lt_false; lra. Qed.

Lemma insights_nonempty (now : datetime) (entries : list Entry) :
  (1 ≤ length (generate_psychology_insights float_sqrt format_1f now entries))%nat.
Proof.
  unfold generate_psychology_insights. cbv zeta.
  destruct (length entries <? 3)%nat; [cbn; lia|].
  match goal with |- context [match ?l with [] => _ | _ => _ end] =>
    destruct l; cbn [length]; lia
  end.
Qed.

End InsightFacts.

(** X13.  There are always between one and four insights, and no two of
    them have the same title. *)
Theorem generate_psychology_insights_count (float_sqrt : Q → Q)
    (format_1f : Q → list N) (now : Models.datetime)
    (entries : list Models.Entry) :
  (1 ≤ length (App.generate_psychology_insights float_sqrt format_1f now entries)
   ∧ length (App.generate_psychology_insights float_sqrt format_1f now entries)
     ≤ 4)%nat
  ∧ NoDup (App.title
           <$> App.generate_psychology_insights float_sqrt format_1f now entries).
Proof.
  unfold App.generate_psychology_insights. cbv zeta.
  repeat match goal with
         | |- context [if ?b then _ else _] =>
             match type of b with bool => destruct b end
         end;
    (split; [cbn [app length]; lia|]);
    apply (bool_decide_unpack _); by vm_compute.
Qed.

(** X14.  With at most seven entries neither trend insight (['Positive
    Momentum Detected'], ['CBT Reflection Opportunity']) is given: the recent
    entries are then all the entries, and the two averages coincide. *)
Theorem generate_psychology_insights_few_entries (float_sqrt : Q → Q)
    (format_1f : Q → list N) (now : Models.datetime)
    (entries : list Models.Entry) :
  (length entries ≤ 7)%nat →
  Forall
    (λ insight,
       App.title insight ≠ App.title App.positive_momentum
       ∧ App.title insight ≠ App.title App.cbt_reflection)
    (App.generate_psychology_insights float_sqrt format_1f now entries).
Proof.
  intros Hlen. unfold App.generate_psychology_insights. cbv zeta.
  rewrite (recent_mean_of_few entries Hlen).
  destruct (no_trend_when_equal (App.mean (Models.mood_rating <$> entries)))
    as [-> ->].
  repeat match goal with
         | |- context [if ?b then _ else _] =>
             match type of b with bool => destruct b end
         end;
    cbn [app]; repeat constructor; by vm_compute.
Qed.

Lemma generate_psychology_insights_few_entries_witness :
  Forall
    (λ insight,
       App.title insight ≠ App.title App.positive_momentum
       ∧ App.title insight ≠ App.title App.cbt_reflection)
    (App.generate_psychology_insights (λ x, x) (λ _, []) (App.noon 100)
       [App.entry_on 90 1 "negative"; App.entry_on 91 1 "negative";
        App.entry_on 99 5 "positive"; App.entry_on 100 5 "positive"]).
Proof.
  apply generate_psychology_insights_few_entries. cbn. lia.
Defined.

(** X15.  The default insight ['Steady Progress'] and the beginner's insight
    ['Building Self-Awareness'] are only ever given alone. *)
Theorem generate_psychology_insights_default_alone (float_sqrt : Q → Q)
    (format_1f : Q → list N) (now : Models.datetime)
    (entries : list Models.Entry) :
  Forall
    (λ insight,
       App.title insight ≠ App.title (App.steady_progress format_1f 0 0)
       ∧ App.title insight ≠ App.title (App.building_self_awareness 0))
    (App.generate_psychology_insights float_sqrt format_1f now entries)
  ∨ length (App.generate_psychology_insights float_sqrt format_1f now entries)
    = 1%nat.
Proof.
  unfold App.generate_psychology_insights. cbv zeta.
  repeat match goal with
         | |- context [if ?b then _ else _] =>
             match type of b with bool => destruct b end
         end;
    cbn [app]; first [by right | left; repeat constructor; by vm_compute].
Qed.

(** ** The analytics *)

Section AnalyticsFacts.
Import Models App.




End AnalyticsFacts.

(** X16.  The percentage of good days reported by the analytics is an
    integer between 0 and 100, whatever the query returns. *)
Theorem get_analytics_positive_ratio_range (float_sqrt : Q → Q)
    (format_1f : Q → list N) (now : Models.datetime)
    (query_all : option (list Models.Entry)) :
  (0 ≤ App.positive_ratio (App.get_analytics float_sqrt format_1f now query_all)
   ∧ App.positive_ratio (App.get_analytics float_sqrt format_1f now query_all)
     ≤ 100)%Z.
Proof.
  destruct query_all as [[|entry entries]|]; [done| |done].
  cbn [App.get_analytics App.positive_ratio].
  set (rows := entry :: entries).
  set (good := length (List.filter _ rows)).
  assert (good ≤ length rows)%nat as Hgood by apply bool_filter_length_le.
  assert (0 < Py.of_nat (length rows)) as Hlen
    by (apply PyFacts.of_nat_pos; cbn; lia).
  apply round_half_even_between.
  - change (inject_Z 0) with 0.
    pose proof (div_nonneg _ _ (PyFacts.of_nat_nonneg good) Hlen). lra.
  - change (inject_Z 100) with 100.
    assert (Py.of_nat good / Py.of_nat (length rows) <= 1).
    { apply Qle_shift_div_r; [done|]. rewrite Qmult_1_l.
      by apply PyFacts.of_nat_le. }
    lra.
Qed.



(** X18.  The analytics carry at least one insight exactly when there are
    entries, and their streak is never more than their number of entries. *)
Theorem get_analytics_consistent (float_sqrt : Q → Q)
    (format_1f : Q → list N) (now : Models.datetime)
    (query_all : option (list Models.Entry)) :
  (App.insights (App.get_analytics float_sqrt format_1f now query_all) = []
   ↔ App.total_entries (App.get_analytics float_sqrt format_1f now query_all)
     = 0%nat)
  ∧ (0 ≤ App.streak_days (App.get_analytics float_sqrt format_1f now query_all)
     ∧ App.streak_days (App.get_analytics float_sqrt format_1f now query_all)
       ≤ Z.of_nat
           (App.total_entries
              (App.get_analytics float_sqrt format_1f now query_all)))%Z.
Proof.
  destruct query_all as [[|entry entries]|]; [done| |done].
  cbn [App.get_analytics App.insights App.total_entries App.streak_days].
  set (rows := entry :: entries).
  split.
  - split; [|done]. intros Hnone.
    assert (length (App.generate_psychology_insights float_sqrt format_1f now rows)
            = 0%nat) as Hlen by by rewrite Hnone.
    pose proof (insights_nonempty float_sqrt format_1f now rows). lia.
  - destruct (streak_cases now rows) as [[-> _]|[Hk _]]; lia.
Qed.

(** ** The diagnostic fields of the result *)

(** X19.  In every result of [analyze] the diagnostic fields are in range
    too: [emotional_intensity] lies in [0.0, 1.0] and [psychology_score] in
    [-2.8, 2.3]. *)
Theorem analyze_diagnostics_range `{U : Unicode}
    (textblob_sentiment : list N → Q * Q)
    (polarity_scores : list N → VaderScores) (text : list N) :
  (0 <= emotional_intensity
          (analyze textblob_sentiment (init polarity_scores) text)
   ∧ emotional_intensity
       (analyze textblob_sentiment (init polarity_scores) text) <= 1)
  ∧ (-2.8 <= psychology_score
               (analyze textblob_sentiment (init polarity_scores) text)
     ∧ psychology_score
         (analyze textblob_sentiment (init polarity_scores) text) <= 2.3).
Proof.
  unfold analyze, analyze_traced.
  destruct (bool_decide (text = []) || bool_decide (Py.strip text = [])).
  { cbn. repeat split; lra. }
  cbn [mbind traced_bind invoke mret traced_ret fst snd emotional_intensity
       psychology_score].
  destruct (analyze_emotional_intensity_range_aux (preprocess_text text))
    as [Hi1 Hi2].
  destruct (psychology_weighted_analysis_range_aux polarity_scores
              (preprocess_text text)) as [Hp1 Hp2].
  split.
  - destruct (round3_between 0 1 _ Hi1 Hi2). done.
  - assert (-2.8 == inject_Z (-2800) / 1000) as E1 by reflexivity.
    assert (2.3 == inject_Z 2300 / 1000) as E2 by reflexivity.
    split.
    + rewrite E1. apply round3_ge. by rewrite <- E1.
    + rewrite E2. apply round3_le. by rewrite <- E2.
Qed.

(** The label is decided before the score is rounded: a combined score of
    0.1496 is reported as 0.15 and labelled neutral. *)
Example analyze_neutral_at_threshold :
  compound_score
    (analyze (U := Excerpt.unicode) (λ _, (0.5984, 0.5))
       (init Excerpt.no_opinion) (Py.lit "ok")) == 0.15
  ∧ sentiment_label
      (analyze (U := Excerpt.unicode) (λ _, (0.5984, 0.5))
         (init Excerpt.no_opinion) (Py.lit "ok")) = neutral.
Proof. by vm_compute. Qed.

(** ** The word count *)

Section WordCount.
Context `{U : Unicode}.

Lemma lstrip_visible (s : list N) : visible s → visible (Py.lstrip s).
Proof.
  unfold visible. induction s as [|c s IH]; [done|]. cbn.
  destruct (Py.isspace c) eqn:Hc; [|done].
  intros [Hc'|Hs]%Exists_cons; [congruence | by apply IH].
Qed.

Lemma reverse_visible (s : list N) : visible s → visible (reverse s).
Proof.
  unfold visible. rewrite !Exists_exists.
  intros (c & Hc & Hv). exists c. by rewrite elem_of_reverse.
Qed.

Lemma strip_visible (s : list N) : visible s → visible (Py.strip s).
Proof.
  intros Hs. unfold Py.strip, Py.rstrip.
  by apply reverse_visible, lstrip_visible, reverse_visible, lstrip_visible.
Qed.

Lemma collapse_whitespace_visible (in_run : bool) (s : list N) :
  visible s → visible (collapse_whitespace in_run s).
Proof.
  unfold visible. intros Hs. revert in_run.
  induction Hs as [c s Hc|c s Hs IH]; intros in_run; cbn.
  - rewrite Hc. by left.
  - destruct (Py.isspace c); [destruct in_run|]; try right; apply IH.
Qed.

Lemma sub_word_visible (pat repl : list N) (prev : option N) (s : list N) :
  visible repl → visible s → visible (sub_word_from pat repl prev 0 s).
Proof.
  unfold visible. intros Hrepl Hs. revert prev.
  induction Hs as [c s Hc|c s Hs IH]; intros prev; cbn [sub_word_from];
    destruct (match_here pat prev (c :: s));
    try (apply Exists_app; by left).
  - by left.
  - right. apply IH.
Qed.

Lemma expand_contractions_visible (text : list N) :
  visible text → visible (expand_contractions text).
Proof.
  assert (Forall (λ item : string * string, visible (Py.lit item.2))
            contractions) as Hitems.
  { unfold visible. apply (bool_decide_unpack _). by vm_compute. }
  unfold expand_contractions. revert text.
  induction Hitems as [|[contraction expansion] items Hitem _ IH];
    intros text Htext; cbn [fold_left]; [done|].
  apply IH. by apply sub_word_visible.
Qed.

Lemma lower_visible (s : list N) :
  Forall is_ascii s → visible s → visible (lower s).
Proof.
  intros Hascii Hs. rewrite (lower_ascii s Hascii). unfold visible in *.
  apply Exists_fmap. eapply Exists_impl; [exact Hs|].
  intros c Hc. cbn. unfold ascii_lower, ascii_isupper.
  destruct (65 <=? c)%N eqn:E1, (c <=? 90)%N eqn:E2; cbn [andb]; try done.
  apply N.leb_le in E1, E2. unfold Py.isspace.
  repeat match goal with
         | |- context [(?a <=? ?b)%N] =>
             first
               [ replace (a <=? b)%N with true
                   by (symmetry; apply N.leb_le; lia)
               | replace (a <=? b)%N with false
                   by (symmetry; apply N.leb_gt; lia) ]
         | |- context [(?a =? ?b)%N] =>
             replace (a =? b)%N with false by (symmetry; apply N.eqb_neq; lia)
         end.
  done.
Qed.

Lemma split_from_nonempty (cur s : list N) :
  cur ≠ [] ∨ visible s → Py.split_from cur s ≠ [].
Proof.
  unfold visible. revert cur. induction s as [|c s IH]; intros cur Hcur; cbn.
  - destruct Hcur as [Hcur|Hs]; [by destruct cur | by apply Exists_nil in Hs].
  - destruct (Py.isspace c) eqn:Hc.
    + destruct cur; [|done]. apply IH.
      destruct Hcur as [?|[?|?]%Exists_cons]; [done|congruence|by right].
    + apply IH. by left.
Qed.

Lemma not_blank_visible (text : list N) :
  forallb Py.isspace text = false → visible text.
Proof.
  unfold visible. induction text as [|c text IH]; cbn; [done|].
  destruct (Py.isspace c) eqn:Hc; cbn; [right; by apply IH | by left].
Qed.

End WordCount.

(** X20.  For an ASCII text the reported [word_count] is 0 exactly when the
    text is blank: normalisation never removes the last word of a text. *)
Theorem analyze_word_count_zero `{U : Unicode}
    (textblob_sentiment : list N → Q * Q) (self : SentimentAnalyzer)
    (text : list N) :
  Forall is_ascii text →
  (word_count (analyze textblob_sentiment self text) = 0%nat
   ↔ forallb Py.isspace text = true).
Proof.
  intros Hascii. unfold analyze, analyze_traced. rewrite analyze_guard.
  destruct (forallb Py.isspace text) eqn:Hblank; [done|].
  cbn [mbind traced_bind invoke mret traced_ret fst snd word_count].
  split; [|done]. intros Hnone.
  apply not_blank_visible, strip_visible,
    (collapse_whitespace_visible false), expand_contractions_visible in Hblank.
  apply lower_visible in Hblank;
    [|by apply expand_contractions_ascii, collapse_whitespace_ascii, strip_ascii].
  fold (preprocess_text text) in Hblank.
  destruct (split_from_nonempty [] (preprocess_text text)); [by right|].
  by apply length_zero_iff_nil.
Qed.

Lemma analyze_word_count_zero_witness :
  word_count
    (analyze (U := Excerpt.unicode) Excerpt.no_sentiment
       (init Excerpt.no_opinion) (Py.lit " ")) = 0%nat.
Proof.
  apply (analyze_word_count_zero (U := Excerpt.unicode) Excerpt.no_sentiment
           (init Excerpt.no_opinion) (Py.lit " ")).
  - apply (bool_decide_unpack _). by vm_compute.
  - reflexivity.
Defined.

(** ** The upper-case ratio, for every alphabet *)

Section CapsTerm.
Context `{U : Unicode}.

Lemma bool_filter_none {A} (f : A → bool) (l : list A) :
  Forall (λ x, f x = false) l → List.filter f l = [].
Proof. induction 1 as [|x l Hx _ IH]; cbn; [done|]. by rewrite Hx. Qed.

(** The space and the letters of the expansions are not upper-case. *)
Lemma ascii_not_upper_not_stays (c : N) :
  is_ascii c → ascii_isupper c = false → ¬ stays_upper c.
Proof.
  intros Hc Hlow [Hup _]. rewrite (isupper_ascii c Hc) in Hup. congruence.
Qed.

Lemma expansions_not_stays_upper :
  Forall (λ item : string * string, Forall (λ c, ¬ stays_upper c) (Py.lit item.2))
    contractions.
Proof.
  assert (Forall
            (λ item : string * string,
               Forall (λ c, is_ascii c ∧ ascii_isupper c = false)
                 (Py.lit item.2))
            contractions) as Hitems
    by (apply (bool_decide_unpack _); by vm_compute).
  eapply Forall_impl; [exact Hitems|]. intros item Hitem. cbn in *.
  eapply Forall_impl; [exact Hitem|].
  intros c [Hc Hlow]. by apply ascii_not_upper_not_stays.
Qed.

(** If the text has no character that stays upper-case, its normalised form
    has no upper-case character at all. *)
Lemma preprocess_text_makes_no_upper (text : list N) :
  lower_makes_no_upper →
  Forall (λ c, ¬ stays_upper c) text →
  List.filter isupper (preprocess_text text) = [].
Proof.
  intros Hlower Htext. unfold preprocess_text.
  pose proof (before_lower_keeps (λ c, ¬ stays_upper c) text) as Hkeep.
  set (s := expand_contractions _) in *.
  assert (Forall (λ c, ¬ stays_upper c) s) as Hs.
  { apply Hkeep; [|apply expansions_not_stays_upper|done].
    by apply ascii_not_upper_not_stays. }
  apply bool_filter_none, Forall_forall. intros d Hd.
  destruct (isupper d) eqn:Hup; [|done].
  destruct (Hlower s d Hd Hup) as [Hin Hfix].
  pose proof (proj1 (Forall_forall _ _) Hs d Hin) as Hnot.
  destruct Hnot. by split.
Qed.

End CapsTerm.

(** C8 (amended).  For every input text that has no character which is
    upper-case and which [lower] leaves as it is, the intensity scorer,
    called as [analyze] calls it on the normalised text, gets 0 from its
    upper-case-ratio term: the ratio is 0 and the score is the minimum of 1.0
    and the two other terms.  The tables are taken to make no upper-case
    character by lower-casing, as those of CPython do. *)
Theorem caps_term_zero_unless_stays_upper `{U : Unicode} (text : list N) :
  lower_makes_no_upper →
  Forall (λ c, ¬ stays_upper c) text →
  caps_ratio (preprocess_text text) * 0.2 == 0
  ∧ analyze_emotional_intensity (preprocess_text text)
    == Qmin
         (Py.of_nat (intensity_count (Py.split (preprocess_text text)))
          / Py.of_nat (Nat.max (length (Py.split (preprocess_text text))) 1)
          * 0.5
          + Py.of_nat (Py.count 33%N (preprocess_text text))
            / Py.of_nat
                (Nat.max (length (Py.split_on 46%N (preprocess_text text))) 1)
            * 0.3)
         1.0.
Proof.
  intros Hlower Htext.
  assert (caps_ratio (preprocess_text text) == 0) as Hcaps.
  { unfold caps_ratio.
    by rewrite (preprocess_text_makes_no_upper text Hlower Htext). }
  split; [rewrite Hcaps; ring|].
  unfold analyze_emotional_intensity.
  rewrite PyFacts.min_Qmin, Hcaps. apply Q.min_compat; [ring|done].
Qed.

(** The excerpt of the tables makes no upper-case character either: of its
    three non-ASCII upper-case characters, U+0130 and U+212A are mapped to
    lower-case letters and only U+2102 is left as it is. *)
Lemma excerpt_lower_makes_no_upper : lower_makes_no_upper (U := Excerpt.unicode).
Proof.
  intros s d Hd Hup. cbn in Hd, Hup |- *.
  unfold Excerpt.lower in Hd. apply list_elem_of_bind in Hd as (c & Hd & Hc).
  unfold Excerpt.lower_char in Hd.
  destruct (c =? 0x130)%N eqn:E1.
  { apply elem_of_cons in Hd as [-> |Hd]; [done|].
    apply list_elem_of_singleton in Hd as ->. done. }
  destruct (c =? 0x212A)%N eqn:E2.
  { apply list_elem_of_singleton in Hd as ->. done. }
  apply list_elem_of_singleton in Hd as ->.
  apply N.eqb_neq in E1, E2.
  unfold Excerpt.isupper, ascii_lower in Hup |- *.
  destruct (ascii_isupper c) eqn:E3.
  { unfold ascii_isupper in *. apply andb_true_iff in E3 as [H1 H2].
    apply N.leb_le in H1, H2.
    replace (65 <=? c + 32)%N with true in Hup by (symmetry; apply N.leb_le; lia).
    replace (c + 32 <=? 90)%N with false in Hup by (symmetry; apply N.leb_gt; lia).
    replace (c + 32 =? 0x2102)%N with false in Hup by (symmetry; apply N.eqb_neq; lia).
    replace (c + 32 =? 0x130)%N with false in Hup by (symmetry; apply N.eqb_neq; lia).
    replace (c + 32 =? 0x212A)%N with false in Hup by (symmetry; apply N.eqb_neq; lia).
    done. }
  split; [done|].
  unfold Excerpt.lower. cbn [mbind list_bind app].
  unfold Excerpt.lower_char, ascii_lower.
  apply N.eqb_neq in E1, E2. by rewrite E1, E2, E3.
Qed.

Lemma caps_term_zero_unless_stays_upper_witness :
  caps_ratio (U := Excerpt.unicode)
    (preprocess_text (U := Excerpt.unicode)
       (Py.lit "I'm SO Happy, 300 " ++ [0x212A; 0x20; 0x130]%N)) * 0.2
  == 0.
Proof.
  refine (proj1 (caps_term_zero_unless_stays_upper (U := Excerpt.unicode)
                   (Py.lit "I'm SO Happy, 300 " ++ [0x212A; 0x20; 0x130]%N)
                   excerpt_lower_makes_no_upper _)).
  apply (bool_decide_unpack _). by vm_compute.
Defined.

(** U+2102, the character of the counterexample, is one that stays
    upper-case; the Kelvin sign U+212A is upper-case but does not stay so. *)
Example double_struck_C_stays_upper :
  stays_upper (U := Excerpt.unicode) 0x2102%N
  ∧ ¬ stays_upper (U := Excerpt.unicode) 0x212A%N.
Proof. split; [by vm_compute|]. intros [_ Hfix]. by vm_compute in Hfix. Qed.
